(** * usb_cam_service: the image toggle node

    A shallow embedding of [src/image_toggle_service.cpp] and the proofs of
    its specification.  The node subscribes to [/image_raw], converts every
    frame to grayscale or to colour according to the flag [use_grayscale_],
    publishes the result on [/image_processed], and serves
    [toggle_grayscale] (a [std_srvs/SetBool]) to flip the flag.

    Layout of the file:
    - [cv]: the part of OpenCV the node calls;
    - [sensor_msgs], [cv_bridge], [std_srvs]: the messages and the bridge;
    - the node: its state, the callback monad, [imageCallback],
      [handleToggleRequest], and the executor loop;
    - the theorems. *)

From Stdlib Require Import Ascii String ZArith List Bool Arith Lia DecimalString.
Import ListNotations.

Local Open Scope nat_scope.

(** ** OpenCV

    The library is not part of the repository.  Its functions are modelled
    by their results, and by the argument checks with which they refuse a
    call: a refused call throws [cv::Exception], which nothing in the node
    catches. *)

Module cv.

(** The depth of a matrix: the type of one sample. *)
Inductive Depth : Type :=
| CV_8U | CV_8S | CV_16U | CV_16S | CV_32S | CV_32F | CV_64F.

(** OpenCV's number for a depth. *)
Definition depth_code (d : Depth) : nat :=
  match d with
  | CV_8U => 0 | CV_8S => 1 | CV_16U => 2 | CV_16S => 3
  | CV_32S => 4 | CV_32F => 5 | CV_64F => 6
  end.

Definition depth_eqb (d1 d2 : Depth) : bool := depth_code d1 =? depth_code d2.

(** [Mat::elemSize1()]: the bytes of one sample. *)
Definition elemSize1_of (d : Depth) : nat :=
  match d with
  | CV_8U | CV_8S => 1
  | CV_16U | CV_16S => 2
  | CV_32S | CV_32F => 4
  | CV_64F => 8
  end.

(** [cv::Mat]: a header (rows, cols, depth, channel count) and a buffer of
    samples, the channels of one pixel next to each other.  A sample is kept
    as the unsigned number its bytes spell, whatever the depth.  The
    matrices the node handles are continuous: [toCvCopy] copies the message
    into a fresh matrix. *)
Record Mat : Type := {
  rows : nat;
  cols : nat;
  depth : Depth;
  channels : nat;
  data : list Z
}.

(** [Mat::total()]: the number of pixels. *)
Definition total (m : Mat) : nat := rows m * cols m.

(** [Mat::type()]: depth and channel count. *)
Definition type (m : Mat) : Depth * nat := (depth m, channels m).

(** [Mat::size()]. *)
Definition size (m : Mat) : nat * nat := (rows m, cols m).

(** [Mat::elemSize()]: the bytes of one pixel. *)
Definition elemSize (m : Mat) : nat := channels m * elemSize1_of (depth m).

(** The default-constructed matrix. *)
Definition empty : Mat :=
  {| rows := 0; cols := 0; depth := CV_8U; channels := 1; data := [] |}.

(** [Mat::empty()]. *)
Definition is_empty (m : Mat) : bool := total m =? 0.

(** The buffer holds exactly the samples of the header's pixels. *)
Definition continuous (m : Mat) : Prop :=
  length (data m) = total m * channels m.

(** Sample [c] of pixel [i] (pixels counted row by row). *)
Definition at_ (m : Mat) (i c : nat) : Z :=
  nth (i * channels m + c) (data m) 0%Z.

(** All the samples of pixel [i], cut out of the buffer. *)
Definition pixel (m : Mat) (i : nat) : list Z :=
  firstn (channels m) (skipn (i * channels m) (data m)).

(** The loop shared by OpenCV's per-pixel kernels: a matrix with the
    dimensions and the depth of [src] and [dcn] channels, whose pixel [i]
    is [f i]. *)
Definition per_pixel (src : Mat) (dcn : nat) (f : nat -> list Z) : Mat :=
  {| rows := rows src;
     cols := cols src;
     depth := depth src;
     channels := dcn;
     data := flat_map f (seq 0 (total src)) |}.

(** [cv::split]: one single-channel plane per channel of [m]. *)
Definition split (m : Mat) : list Mat :=
  map (fun c => per_pixel m 1 (fun i => [at_ m i c])) (seq 0 (channels m)).

(** [cv::Mat::zeros(size, type)]. *)
Definition zeros (sz : nat * nat) (ty : Depth * nat) : Mat :=
  {| rows := fst sz;
     cols := snd sz;
     depth := fst ty;
     channels := snd ty;
     data := repeat 0%Z (fst sz * snd sz * snd ty) |}.

(** Why OpenCV refuses a call. *)
Inductive Exception : Type :=
| EmptySource
| InvalidNumberOfChannels
| UnsupportedDepth
| MismatchedPlanes.

(** The planes [cv::merge] accepts beside the first: same size, same
    depth. *)
Definition same_plane (m0 m : Mat) : bool :=
  (rows m =? rows m0) && (cols m =? cols m0) && depth_eqb (depth m) (depth m0).

(** [cv::merge]: the planes of [mv] interleaved, pixel by pixel. *)
Definition merge (mv : list Mat) : Exception + Mat :=
  match mv with
  | [] => inl MismatchedPlanes
  | m0 :: _ =>
      if forallb (same_plane m0) mv
      then inr (per_pixel m0 (list_sum (map channels mv))
                          (fun i => flat_map (fun m => pixel m i) mv))
      else inl MismatchedPlanes
  end.

(** [std::vector::operator[]] on a vector of matrices. *)
Definition vec_at (v : list Mat) (k : nat) : Mat := nth k v empty.

(** The conversion codes the node passes to [cv::cvtColor]. *)
Inductive ColorConversionCodes : Type :=
| COLOR_BGR2GRAY
| COLOR_BGRA2GRAY
| COLOR_GRAY2BGR
| COLOR_BGRA2BGR
| COLOR_YUV2BGR.

(** The arithmetic of the two conversions that compute (the others only
    move samples) belongs to OpenCV, not to this repository: the
    development is parametric in it. *)
Class ColorArith : Type := {
  (** blue, green, red to luma *)
  bgr2gray : Depth -> Z -> Z -> Z -> Z;
  (** luma, U, V to blue, green, red *)
  yuv2bgr : Depth -> Z -> Z -> Z -> Z * Z * Z
}.

(** The source channel counts a conversion code takes. *)
Definition scn_ok (code : ColorConversionCodes) (scn : nat) : bool :=
  match code with
  | COLOR_BGR2GRAY | COLOR_BGRA2GRAY | COLOR_BGRA2BGR => (scn =? 3) || (scn =? 4)
  | COLOR_GRAY2BGR => scn =? 1
  | COLOR_YUV2BGR => scn =? 3
  end.

(** The depths [cv::cvtColor] has kernels for. *)
Definition depth_supported (d : Depth) : bool :=
  match d with
  | CV_8U | CV_16U | CV_32F => true
  | CV_8S | CV_16S | CV_32S | CV_64F => false
  end.

(** The checks of [cv::cvtColor], in its order. *)
Definition cvtColor_check (src : Mat) (code : ColorConversionCodes) : option Exception :=
  if is_empty src then Some EmptySource
  else if negb (scn_ok code (channels src)) then Some InvalidNumberOfChannels
  else if negb (depth_supported (depth src)) then Some UnsupportedDepth
  else None.

(** The kernels of [cv::cvtColor], pixel by pixel. *)
Definition cvtColor_kernel `{ColorArith} (src : Mat) (code : ColorConversionCodes) : Mat :=
  match code with
  | COLOR_BGR2GRAY | COLOR_BGRA2GRAY =>
      per_pixel src 1
        (fun i => [bgr2gray (depth src) (at_ src i 0) (at_ src i 1) (at_ src i 2)])
  | COLOR_GRAY2BGR =>
      per_pixel src 3 (fun i => let v := at_ src i 0 in [v; v; v])
  | COLOR_BGRA2BGR =>
      per_pixel src 3 (fun i => [at_ src i 0; at_ src i 1; at_ src i 2])
  | COLOR_YUV2BGR =>
      per_pixel src 3
        (fun i => let '(b, g, r) :=
                    yuv2bgr (depth src) (at_ src i 0) (at_ src i 1) (at_ src i 2)
                  in [b; g; r])
  end.

(** [cv::cvtColor(src, dst, code)]: [dst], or the exception thrown. *)
Definition cvtColor `{ColorArith} (src : Mat) (code : ColorConversionCodes)
  : Exception + Mat :=
  match cvtColor_check src code with
  | Some e => inl e
  | None => inr (cvtColor_kernel src code)
  end.

(** [CV_DESCALE(x, n)]: rounding right shift. *)
Definition CV_DESCALE (x n : Z) : Z := Z.shiftr (x + Z.shiftl 1 (n - 1)) n.

(** An instance: the BT.601 weights in 14-bit fixed point, on unsigned
    samples of the depth's width. *)
Definition sample_max (d : Depth) : Z := Z.shiftl 1 (8 * Z.of_nat (elemSize1_of d)) - 1.

Definition sample_half (d : Depth) : Z := Z.shiftl 1 (8 * Z.of_nat (elemSize1_of d) - 1).

(** [cv::saturate_cast] to the depth's range. *)
Definition saturate_cast (d : Depth) (x : Z) : Z := Z.max 0 (Z.min (sample_max d) x).

Definition bt601 : ColorArith := {|
  bgr2gray d b g r := CV_DESCALE (b * 1868 + g * 9617 + r * 4899) 14;
  yuv2bgr d y u v :=
    let u' := (u - sample_half d)%Z in
    let v' := (v - sample_half d)%Z in
    (saturate_cast d (y + CV_DESCALE (u' * 33292) 14),
     saturate_cast d (y + CV_DESCALE (u' * (-6472) + v' * (-9519)) 14),
     saturate_cast d (y + CV_DESCALE (v' * 18678) 14))
|}.

End cv.

(** ** Messages *)

Module std_msgs.
Record Header : Type := { stamp : Z; frame_id : string }.
End std_msgs.

Module sensor_msgs.
(** [sensor_msgs::msg::Image]. *)
Record Image : Type := {
  header : std_msgs.Header;
  height : nat;
  width : nat;
  encoding : string;
  is_bigendian : bool;
  step : nat;
  data : list Z
}.
End sensor_msgs.

Module std_srvs.
(** [std_srvs::srv::SetBool]. *)
Record Request : Type := { data : bool }.
Record Response : Type := { success : bool; message : string }.
End std_srvs.

(** ** cv_bridge *)

Module cv_bridge.

Record CvImage : Type := {
  header : std_msgs.Header;
  encoding : string;
  image : cv.Mat
}.

(** Assignments to [cv_ptr->encoding] and [cv_ptr->image]. *)
Definition set_encoding (p : CvImage) (e : string) : CvImage :=
  {| header := header p; encoding := e; image := image p |}.

Definition set_image (p : CvImage) (m : cv.Mat) : CvImage :=
  {| header := header p; encoding := encoding p; image := m |}.

(** The bytes of a sample, low byte first. *)
Definition bytes_of (d : cv.Depth) (v : Z) : list Z :=
  map (fun k => Z.land (Z.shiftr v (8 * Z.of_nat k)) 255)
      (seq 0 (cv.elemSize1_of d)).

(** The sample a run of bytes spells, low byte first. *)
Definition sample_of (bytes : list Z) : Z :=
  fold_right (fun b acc => (b + 256 * acc)%Z) 0%Z bytes.

(** [CvImage::toImageMsg]: the header fields of the matrix, a row of
    [cols * elemSize] bytes, and the buffer byte by byte. *)
Definition toImageMsg (p : CvImage) : sensor_msgs.Image :=
  {| sensor_msgs.header := header p;
     sensor_msgs.height := cv.rows (image p);
     sensor_msgs.width := cv.cols (image p);
     sensor_msgs.encoding := encoding p;
     sensor_msgs.is_bigendian := false;
     sensor_msgs.step := cv.cols (image p) * cv.elemSize (image p);
     sensor_msgs.data := flat_map (bytes_of (cv.depth (image p))) (cv.data (image p)) |}.

(** [cv_bridge::toCvCopy(source, encoding)] is the bridge's: it yields a
    decoded image, or throws [cv_bridge::Exception] with a message. *)
Class Bridge : Type := {
  toCvCopy : sensor_msgs.Image -> string -> string + CvImage
}.

(** An instance.  It reads the named encodings a camera driver emits and
    the generic ones (["8UC3"], ["16SC1"], ["64FC4"], ...), checks the
    size of the data against the header, and copies the rows; an empty
    message leaves the default matrix, as [Mat::copyTo] does. *)
Fixpoint strip (prefix s : string) : option string :=
  match prefix, s with
  | EmptyString, _ => Some s
  | String a prefix', String b s' =>
      if Ascii.eqb a b then strip prefix' s' else None
  | String _ _, EmptyString => None
  end.

Definition generic_depths : list (string * cv.Depth) :=
  [("8UC", cv.CV_8U); ("8SC", cv.CV_8S); ("16UC", cv.CV_16U); ("16SC", cv.CV_16S);
   ("32SC", cv.CV_32S); ("32FC", cv.CV_32F); ("64FC", cv.CV_64F)]%string.

Definition generic_type (enc : string) : option (cv.Depth * nat) :=
  fold_right
    (fun entry rest =>
       match strip (fst entry) enc with
       | Some digits =>
           match NilEmpty.uint_of_string digits with
           | Some u =>
               let n := Nat.of_uint u in
               if (1 <=? n) && (n <=? 512) then Some (snd entry, n) else None
           | None => rest
           end
       | None => rest
       end)
    None generic_depths.

Definition getCvType (enc : string) : option (cv.Depth * nat) :=
  if String.eqb enc "mono8" then Some (cv.CV_8U, 1)
  else if String.eqb enc "mono16" then Some (cv.CV_16U, 1)
  else if String.eqb enc "yuv422" then Some (cv.CV_8U, 2)
  else if String.eqb enc "bgr8" then Some (cv.CV_8U, 3)
  else if String.eqb enc "rgb8" then Some (cv.CV_8U, 3)
  else if String.eqb enc "bgra8" then Some (cv.CV_8U, 4)
  else if String.eqb enc "rgba8" then Some (cv.CV_8U, 4)
  else generic_type enc.

Definition raw_bridge : Bridge := {|
  toCvCopy source enc :=
    match getCvType (sensor_msgs.encoding source) with
    | None => inl "Unrecognized image encoding"%string
    | Some (d, cn) =>
        let bytes := cv.elemSize1_of d in
        if sensor_msgs.step source <? sensor_msgs.width source * bytes * cn
        then inl "Image is wrongly formed: step < width * byte_depth * num_channels"%string
        else if negb (sensor_msgs.height source * sensor_msgs.step source
                      =? length (sensor_msgs.data source))
        then inl "Image is wrongly formed: height * step != size"%string
        else if sensor_msgs.height source * sensor_msgs.width source =? 0
        then inr {| header := sensor_msgs.header source;
                    encoding := enc;
                    image := cv.empty |}
        else
          let row r := skipn (r * sensor_msgs.step source) (sensor_msgs.data source) in
          let sample r j := sample_of (firstn bytes (skipn (j * bytes) (row r))) in
          inr {| header := sensor_msgs.header source;
                 encoding := enc;
                 image := {| cv.rows := sensor_msgs.height source;
                             cv.cols := sensor_msgs.width source;
                             cv.depth := d;
                             cv.channels := cn;
                             cv.data :=
                               flat_map (fun r => map (sample r)
                                                      (seq 0 (sensor_msgs.width source * cn)))
                                        (seq 0 (sensor_msgs.height source)) |} |}
    end
|}.

End cv_bridge.

(** ** The node *)

Import cv_bridge.

Inductive Severity : Type := INFO | ERROR.

(** The members of [ImageToggleService] that change while the node runs:
    the flag, and what the node has sent to its logger and to the publisher
    of [/image_processed] (oldest first). *)
Record ImageToggleService : Type := {
  use_grayscale_ : bool;
  get_logger : list (Severity * string);
  image_publisher_ : list sensor_msgs.Image
}.

(** Why a callback stopped before its end.  [imageCallback] returns early
    in two places, each tagged here with what it writes to the log; and an
    exception thrown by OpenCV leaves it, as no handler in the node catches
    [cv::Exception]. *)
Inductive Abort : Type :=
| CvBridgeException (what : string)
| UnsupportedChannels (channels : nat)
| CvException (e : cv.Exception).

(** A callback body: it runs on the node's state and either stops early
    or yields a value. *)
Definition Cb (A : Type) : Type :=
  ImageToggleService -> (Abort + A) * ImageToggleService.

Definition ret {A} (a : A) : Cb A := fun self => (inr a, self).

Definition bind {A B} (m : Cb A) (k : A -> Cb B) : Cb B :=
  fun self =>
    match m self with
    | (inl e, self') => (inl e, self')
    | (inr a, self') => k a self'
    end.

Definition return_ {A} (e : Abort) : Cb A := fun self => (inl e, self).

(** A call into OpenCV: its result, or its exception on the way out. *)
Definition throwing {A} (r : cv.Exception + A) : Cb A :=
  match r with
  | inr a => ret a
  | inl e => return_ (CvException e)
  end.

Declare Scope cb_scope.
Delimit Scope cb_scope with cb.
Notation "x <- m ;; k" := (bind m (fun x => k))
  (at level 61, m at next level, right associativity) : cb_scope.
Notation "' p <- m ;; k" := (bind m (fun x => match x with p => k end))
  (at level 61, p pattern, m at next level, right associativity) : cb_scope.
Notation "m ;; k" := (bind m (fun _ => k))
  (at level 61, right associativity) : cb_scope.

Definition read_use_grayscale : Cb bool :=
  fun self => (inr (use_grayscale_ self), self).

Definition write_use_grayscale (b : bool) : Cb unit :=
  fun self => (inr tt, {| use_grayscale_ := b;
                          get_logger := get_logger self;
                          image_publisher_ := image_publisher_ self |}).

Definition RCLCPP (sev : Severity) (line : string) : Cb unit :=
  fun self => (inr tt, {| use_grayscale_ := use_grayscale_ self;
                          get_logger := get_logger self ++ [(sev, line)];
                          image_publisher_ := image_publisher_ self |}).

Definition RCLCPP_INFO : string -> Cb unit := RCLCPP INFO.
Definition RCLCPP_ERROR : string -> Cb unit := RCLCPP ERROR.

Definition publish (msg : sensor_msgs.Image) : Cb unit :=
  fun self => (inr tt, {| use_grayscale_ := use_grayscale_ self;
                          get_logger := get_logger self;
                          image_publisher_ := image_publisher_ self ++ [msg] |}).

(** [printf]'s [%d] on a channel count. *)
Definition fmt_d (n : nat) : string := NilZero.string_of_uint (Nat.to_uint n).

(** The constructor: the flag starts cleared. *)
Definition ImageToggleService_init : ImageToggleService :=
  {| use_grayscale_ := false;
     get_logger := [(INFO, "Image Toggle Service initialized."%string)];
     image_publisher_ := [] |}.

(** How [main] ends: [rclcpp::spin] returns and [main] returns 0, or an
    exception leaves [rclcpp::spin] and the process. *)
Inductive Exit : Type :=
| Returned (code : Z)
| Terminated (e : cv.Exception).

Section Node.

Context {arith : cv.ColorArith} {bridge : cv_bridge.Bridge}.

Local Open Scope cb_scope.

(** Lines 43 to 122 of [imageCallback]: from the decoded image to the
    image to publish.  Each branch yields [processed_image] and
    [cv_ptr] with its new encoding. *)
Definition convert (cv_ptr : CvImage) : Cb CvImage :=
  let input_image := image cv_ptr in
  let channels := cv.channels input_image in
  use_grayscale <- read_use_grayscale ;;
  '(processed_image, cv_ptr) <-
    (if use_grayscale then
       if channels =? 3 then
         processed_image <- throwing (cv.cvtColor input_image cv.COLOR_BGR2GRAY) ;;
         ret (processed_image, set_encoding cv_ptr "mono8")
       else if channels =? 4 then
         processed_image <- throwing (cv.cvtColor input_image cv.COLOR_BGRA2GRAY) ;;
         ret (processed_image, set_encoding cv_ptr "mono8")
       else if channels =? 2 then
         RCLCPP_INFO "Processing 2-channel YUV image for grayscale." ;;
         let channels_vec := cv.split input_image in
         ret (cv.vec_at channels_vec 0, set_encoding cv_ptr "mono8")
       else if channels =? 1 then
         RCLCPP_INFO "Image is already grayscale." ;;
         ret (input_image, set_encoding cv_ptr "mono8")
       else
         RCLCPP_ERROR ("Unsupported number of channels: " ++ fmt_d channels) ;;
         return_ (UnsupportedChannels channels)
     else
       if channels =? 1 then
         processed_image <- throwing (cv.cvtColor input_image cv.COLOR_GRAY2BGR) ;;
         ret (processed_image, set_encoding cv_ptr "bgr8")
       else if channels =? 3 then
         ret (input_image, set_encoding cv_ptr "bgr8")
       else if channels =? 4 then
         processed_image <- throwing (cv.cvtColor input_image cv.COLOR_BGRA2BGR) ;;
         ret (processed_image, set_encoding cv_ptr "bgr8")
       else if channels =? 2 then
         RCLCPP_INFO "Processing 2-channel YUV image for color." ;;
         let channels_vec := cv.split input_image in
         let uv_dummy := cv.zeros (cv.size (cv.vec_at channels_vec 0))
                                  (cv.type (cv.vec_at channels_vec 1)) in
         yuv_image <- throwing (cv.merge [cv.vec_at channels_vec 0; uv_dummy; uv_dummy]) ;;
         processed_image <- throwing (cv.cvtColor yuv_image cv.COLOR_YUV2BGR) ;;
         ret (processed_image, set_encoding cv_ptr "bgr8")
       else
         RCLCPP_ERROR ("Unsupported number of channels: " ++ fmt_d channels) ;;
         return_ (UnsupportedChannels channels)) ;;
  ret (set_image cv_ptr processed_image).

(** [imageCallback]: decode, convert, publish. *)
Definition imageCallback (msg : sensor_msgs.Image) : Cb unit :=
  cv_ptr <- (match toCvCopy msg (sensor_msgs.encoding msg) with
             | inr cv_ptr => ret cv_ptr
             | inl what =>
                 RCLCPP_ERROR ("cv_bridge exception: " ++ what) ;;
                 return_ (CvBridgeException what)
             end) ;;
  cv_ptr <- convert cv_ptr ;;
  publish (toImageMsg cv_ptr).

(** [handleToggleRequest]: the response is the value it yields. *)
Definition handleToggleRequest (request : std_srvs.Request) : Cb std_srvs.Response :=
  write_use_grayscale (std_srvs.data request) ;;
  use_grayscale <- read_use_grayscale ;;
  let response :=
    {| std_srvs.success := true;
       std_srvs.message := if use_grayscale
                           then "Switched to grayscale mode."
                           else "Switched to color mode." |} in
  RCLCPP_INFO (std_srvs.message response) ;;
  ret response.

(** What [rclcpp::spin] delivers to the node, one callback at a time. *)
Inductive Event : Type :=
| Frame (msg : sensor_msgs.Image)
| Toggle (request : std_srvs.Request).

Definition dispatch (ev : Event) (self : ImageToggleService) : ImageToggleService :=
  match ev with
  | Frame msg => snd (imageCallback msg self)
  | Toggle request => snd (handleToggleRequest request self)
  end.

(** The callbacks the single-threaded executor has run, in order, each to
    its end or to the point where it stopped. *)
Definition spin (evs : list Event) (self : ImageToggleService) : ImageToggleService :=
  fold_left (fun s ev => dispatch ev s) evs self.

(** The exception with which a callback leaves the executor, if any. *)
Definition uncaught (ev : Event) (self : ImageToggleService) : option cv.Exception :=
  match ev with
  | Frame msg =>
      match fst (imageCallback msg self) with
      | inl (CvException e) => Some e
      | _ => None
      end
  | Toggle _ => None
  end.

(** [rclcpp::spin(node)] on the events the transport holds: it runs the
    callbacks in order and ends with the events, or with the first
    exception that leaves a callback; the events behind it are never
    delivered. *)
Fixpoint rclcpp_spin (evs : list Event) (self : ImageToggleService)
  : ImageToggleService * option cv.Exception :=
  match evs with
  | [] => (self, None)
  | ev :: rest =>
      match uncaught ev self with
      | Some e => (dispatch ev self, Some e)
      | None => rclcpp_spin rest (dispatch ev self)
      end
  end.

(** [main]: construct the node, spin, return 0 unless an exception ended
    the process. *)
Definition main (evs : list Event) : ImageToggleService * Exit :=
  match rclcpp_spin evs ImageToggleService_init with
  | (self, None) => (self, Returned 0)
  | (self, Some e) => (self, Terminated e)
  end.

End Node.

(** ** Vocabulary of the specification *)

(** The node's state after one more log line. *)
Definition logged (sev : Severity) (line : string) (self : ImageToggleService)
  : ImageToggleService :=
  snd (RCLCPP sev line self).

(** The flag a sequence of events asks for: the value of the last toggle
    request, or the flag's value before them. *)
Definition requested (evs : list Event) (before : bool) : bool :=
  fold_left (fun b ev => match ev with
                         | Toggle request => std_srvs.data request
                         | Frame _ => b
                         end) evs before.

(** The channel counts [imageCallback] has a branch for. *)
Definition supported : list nat := [1; 2; 3; 4].

(** Two planes laid out sample by sample, as a 2-channel buffer has them. *)
Fixpoint interleave (ys uvs : list Z) : list Z :=
  match ys, uvs with
  | y :: ys', uv :: uvs' => y :: uv :: interleave ys' uvs'
  | _, _ => []
  end.

(** Line 104 of [imageCallback] on its own: the plane of zeros. *)
Definition uv_dummy_of (input_image : cv.Mat) : cv.Mat :=
  let channels_vec := cv.split input_image in
  cv.zeros (cv.size (cv.vec_at channels_vec 0)) (cv.type (cv.vec_at channels_vec 1)).

(** Lines 100 to 108 of [imageCallback] on their own: the three-plane image
    merged from a 2-channel input in colour mode. *)
Definition yuv_image_of (input_image : cv.Mat) : cv.Exception + cv.Mat :=
  let channels_vec := cv.split input_image in
  let uv_dummy := cv.zeros (cv.size (cv.vec_at channels_vec 0))
                           (cv.type (cv.vec_at channels_vec 1)) in
  cv.merge [cv.vec_at channels_vec 0; uv_dummy; uv_dummy].

(** The branches of [imageCallback] that call [cv::cvtColor]. *)
Definition uses_cvtColor (use_grayscale : bool) (channels : nat) : bool :=
  if use_grayscale
  then (channels =? 3) || (channels =? 4)
  else (channels =? 1) || (channels =? 4) || (channels =? 2).

(** The matrices [cv::cvtColor] takes, their channel count apart: not
    empty, and of a depth it has kernels for. *)
Definition cvtColor_accepts (m : cv.Mat) : bool :=
  negb (cv.is_empty m) && cv.depth_supported (cv.depth m).

(** The exception [cv::cvtColor] throws at a matrix it does not take. *)
Definition refusal (m : cv.Mat) : cv.Exception :=
  if cv.is_empty m then cv.EmptySource else cv.UnsupportedDepth.

(** The frames a mode converts without an exception. *)
Definition convertible (use_grayscale : bool) (m : cv.Mat) : bool :=
  negb (uses_cvtColor use_grayscale (cv.channels m)) || cvtColor_accepts m.

(** A frame [imageCallback] has a branch for: it decodes, and the decoded
    image has 1, 2, 3 or 4 channels. *)
Definition accepted {bridge : cv_bridge.Bridge} (msg : sensor_msgs.Image) : bool :=
  match toCvCopy msg (sensor_msgs.encoding msg) with
  | inr cv_ptr => existsb (Nat.eqb (cv.channels (image cv_ptr))) supported
  | inl _ => false
  end.

Definition accepted_event {bridge : cv_bridge.Bridge} (ev : Event) : bool :=
  match ev with
  | Frame msg => accepted msg
  | Toggle _ => false
  end.

(** A frame [imageCallback] gives up on with a diagnostic. *)
Definition dropped_event {bridge : cv_bridge.Bridge} (ev : Event) : bool :=
  match ev with
  | Frame msg => negb (accepted msg)
  | Toggle _ => false
  end.

(** A frame a mode publishes: it has a branch, and the branch converts
    it. *)
Definition publishes {bridge : cv_bridge.Bridge}
    (use_grayscale : bool) (msg : sensor_msgs.Image) : bool :=
  match toCvCopy msg (sensor_msgs.encoding msg) with
  | inr cv_ptr =>
      existsb (Nat.eqb (cv.channels (image cv_ptr))) supported
      && convertible use_grayscale (image cv_ptr)
  | inl _ => false
  end.

(** The number of frames of a run that are published, each under the mode
    requested before it. *)
Fixpoint published_count {bridge : cv_bridge.Bridge}
    (evs : list Event) (use_grayscale : bool) : nat :=
  match evs with
  | [] => 0
  | Frame msg :: rest =>
      (if publishes use_grayscale msg then 1 else 0) + published_count rest use_grayscale
  | Toggle request :: rest => published_count rest (std_srvs.data request)
  end.

Definition is_error (l : Severity * string) : bool :=
  match fst l with
  | ERROR => true
  | INFO => false
  end.

(** The encodings the node writes. *)
Definition tagged (m : sensor_msgs.Image) : Prop :=
  sensor_msgs.encoding m = "mono8"%string \/ sensor_msgs.encoding m = "bgr8"%string.

(** What a client of the node can see of its state: the mode and the
    messages on [/image_processed]. *)
Definition observable (self : ImageToggleService) : bool * list sensor_msgs.Image :=
  (use_grayscale_ self, image_publisher_ self).

(** ** Sample instances and inputs *)

#[global] Existing Instance cv.bt601.
#[global] Existing Instance cv_bridge.raw_bridge.

Definition camera : std_msgs.Header :=
  {| std_msgs.stamp := 0; std_msgs.frame_id := "camera" |}.

Definition frame_of (d : cv.Depth) (enc : string) (rows cols channels : nat)
    (samples : list Z) : CvImage :=
  {| header := camera;
     encoding := enc;
     image := {| cv.rows := rows; cv.cols := cols; cv.depth := d;
                 cv.channels := channels; cv.data := samples |} |}.

(** An 8-bit frame. *)
Definition frame : string -> nat -> nat -> nat -> list Z -> CvImage :=
  frame_of cv.CV_8U.

Definition gray_2x2 : CvImage := frame "mono8" 2 2 1 [0; 128; 255; 64]%Z.

Definition white_2x2 : CvImage :=
  frame "bgr8" 2 2 3 (repeat 255%Z 12).

Definition yuv_1x2 : CvImage := frame "yuv422" 1 2 2 [10; 20; 30; 40]%Z.

Definition five_1x1 : CvImage := frame "8UC5" 1 1 5 [1; 2; 3; 4; 5]%Z.

Definition bgra_1x2 : CvImage :=
  frame "bgra8" 1 2 4 [10; 20; 30; 255; 40; 50; 60; 128]%Z.

(** The same pixels with another alpha channel. *)
Definition bgra_1x2_faded : CvImage :=
  frame "bgra8" 1 2 4 [10; 20; 30; 7; 40; 50; 60; 0]%Z.

(** A 16-bit grayscale frame. *)
Definition deep_1x2 : CvImage := frame_of cv.CV_16U "mono16" 1 2 1 [258; 65535]%Z.

(** A frame of doubles. *)
Definition double_1x1 : CvImage := frame_of cv.CV_64F "64FC3" 1 1 3 [1; 2; 3]%Z.

(** A message without pixels, and what it decodes to. *)
Definition empty_message : sensor_msgs.Image :=
  {| sensor_msgs.header := camera;
     sensor_msgs.height := 0;
     sensor_msgs.width := 0;
     sensor_msgs.encoding := "mono8";
     sensor_msgs.is_bigendian := false;
     sensor_msgs.step := 0;
     sensor_msgs.data := [] |}.


(** The node as constructed, and after a request for grayscale. *)
Definition color_node : ImageToggleService := ImageToggleService_init.

Definition gray_node : ImageToggleService :=
  snd (handleToggleRequest {| std_srvs.data := true |} ImageToggleService_init).

(** * Proofs *)

(** ** Buffers written block by block *)

Lemma flat_map_ext_in {A B : Type} (f g : A -> list B) (l : list A) :
  (forall a, In a l -> f a = g a) -> flat_map f l = flat_map g l.
Proof.
  induction l as [|a l IH]; intros Hfg; simpl.
  - reflexivity.
  - rewrite (Hfg a) by (left; reflexivity).
    rewrite IH by (intros b Hb; apply Hfg; right; exact Hb).
    reflexivity.
Qed.

Lemma skipn_app_length {A : Type} (l l' : list A) (n : nat) :
  skipn (length l + n) (l ++ l') = skipn n l'.
Proof. induction l as [|a l IH]; simpl; auto. Qed.

Lemma firstn_app_length {A : Type} (l l' : list A) :
  firstn (length l) (l ++ l') = l.
Proof. induction l as [|a l IH]; simpl; [reflexivity | rewrite IH; reflexivity]. Qed.

Lemma length_flat_map_uniform {A B : Type} (f : A -> list B) (k : nat) (l : list A) :
  (forall a, length (f a) = k) -> length (flat_map f l) = length l * k.
Proof.
  intros Hf. induction l as [|a l IH]; simpl.
  - reflexivity.
  - rewrite length_app, Hf, IH. reflexivity.
Qed.

Section Blocks.

Context {A : Type} (d : A).

Lemma flat_map_seq_shift (f : nat -> list A) (a n : nat) :
  flat_map f (seq (S a) n) = flat_map (fun i => f (S i)) (seq a n).
Proof.
  rewrite <- seq_shift, !flat_map_concat_map, map_map.
  reflexivity.
Qed.

Variable k : nat.
Variable f : nat -> list A.
Hypothesis f_block : forall j, length (f j) = k.

Lemma length_flat_map_blocks (n a : nat) :
  length (flat_map f (seq a n)) = n * k.
Proof.
  revert a; induction n as [|n IH]; intros a; simpl.
  - reflexivity.
  - rewrite length_app, f_block, IH. reflexivity.
Qed.

Lemma nth_flat_map_blocks (n a i c : nat) :
  i < n -> c < k ->
  nth (i * k + c) (flat_map f (seq a n)) d = nth c (f (a + i)) d.
Proof.
  revert a i; induction n as [|n IH]; intros a i Hi Hc; [lia|].
  simpl flat_map. destruct i as [|i].
  - rewrite Nat.add_0_r. simpl. apply app_nth1. rewrite f_block. exact Hc.
  - replace (S i * k + c) with (length (f a) + (i * k + c))
      by (rewrite f_block; simpl; lia).
    rewrite app_nth2_plus, IH by lia.
    f_equal. f_equal. lia.
Qed.

(** Block [i] of the buffer is what was written for it. *)
Lemma slice_flat_map_blocks (n a i : nat) :
  i < n ->
  firstn k (skipn (i * k) (flat_map f (seq a n))) = f (a + i).
Proof.
  revert a i; induction n as [|n IH]; intros a i Hi; [lia|].
  simpl flat_map. destruct i as [|i].
  - rewrite Nat.add_0_r. simpl skipn.
    rewrite <- (f_block a). apply firstn_app_length.
  - replace (S i * k) with (length (f a) + i * k) by (rewrite f_block; simpl; lia).
    rewrite skipn_app_length, IH by lia.
    f_equal. lia.
Qed.

End Blocks.

Lemma repeat_blocks {A : Type} (x : A) (n k : nat) :
  repeat x (n * k) = flat_map (fun _ => repeat x k) (seq 0 n).
Proof.
  generalize 0. induction n as [|n IH]; intros a; simpl.
  - reflexivity.
  - rewrite repeat_app, (IH (S a)). reflexivity.
Qed.

Lemma flat_map_nth_seq {B : Type} (g : Z -> list B) (l : list Z) :
  flat_map (fun i => g (nth i l 0%Z)) (seq 0 (length l)) = flat_map g l.
Proof.
  induction l as [|x l IH]; simpl.
  - reflexivity.
  - rewrite flat_map_seq_shift. simpl. rewrite IH. reflexivity.
Qed.

Lemma plane0_interleave (ys uvs : list Z) :
  length ys = length uvs ->
  flat_map (fun i => [nth (i * 2 + 0) (interleave ys uvs) 0%Z]) (seq 0 (length ys)) = ys.
Proof.
  revert uvs; induction ys as [|y ys IH]; intros [|uv uvs] Hlen;
    simpl in Hlen; try discriminate; [reflexivity|].
  simpl length. simpl seq. simpl flat_map at 1.
  rewrite flat_map_seq_shift. simpl. f_equal.
  apply IH. lia.
Qed.

(** ** Facts about the matrices *)

Lemma depth_eqb_refl (d : cv.Depth) : cv.depth_eqb d d = true.
Proof. apply Nat.eqb_refl. Qed.

Lemma continuous_per_pixel (src : cv.Mat) (dcn : nat) (f : nat -> list Z) :
  (forall i, length (f i) = dcn) -> cv.continuous (cv.per_pixel src dcn f).
Proof.
  intros Hf. unfold cv.continuous, cv.per_pixel, cv.total. simpl.
  apply length_flat_map_blocks. exact Hf.
Qed.

Lemma at_per_pixel (src : cv.Mat) (dcn : nat) (f : nat -> list Z) (i c : nat) :
  (forall j, length (f j) = dcn) -> i < cv.total src -> c < dcn ->
  cv.at_ (cv.per_pixel src dcn f) i c = nth c (f i) 0%Z.
Proof.
  intros Hf Hi Hc. unfold cv.at_, cv.per_pixel. simpl.
  rewrite (nth_flat_map_blocks 0%Z dcn f Hf) by assumption.
  reflexivity.
Qed.

Lemma pixel_per_pixel (src : cv.Mat) (dcn : nat) (f : nat -> list Z) (i : nat) :
  (forall j, length (f j) = dcn) -> i < cv.total src ->
  cv.pixel (cv.per_pixel src dcn f) i = f i.
Proof.
  intros Hf Hi. unfold cv.pixel, cv.per_pixel. simpl.
  apply (slice_flat_map_blocks dcn f Hf). exact Hi.
Qed.

Lemma pixel_zeros (sz : nat * nat) (d : cv.Depth) (cn i : nat) :
  i < fst sz * snd sz ->
  cv.pixel (cv.zeros sz (d, cn)) i = repeat 0%Z cn.
Proof.
  intros Hi. unfold cv.pixel, cv.zeros. simpl.
  rewrite repeat_blocks.
  rewrite (slice_flat_map_blocks cn (fun _ => repeat 0%Z cn)); auto.
  intros _. apply repeat_length.
Qed.

Lemma at_zeros (sz : nat * nat) (ty : cv.Depth * nat) (i c : nat) :
  cv.at_ (cv.zeros sz ty) i c = 0%Z.
Proof. unfold cv.at_, cv.zeros. simpl. apply nth_repeat. Qed.

Lemma total_per_pixel (src : cv.Mat) (dcn : nat) (f : nat -> list Z) :
  cv.total (cv.per_pixel src dcn f) = cv.total src.
Proof. reflexivity. Qed.

(** The planes [cv::split] gives for a 2-channel matrix. *)
Lemma split_2 (m : cv.Mat) :
  cv.channels m = 2 ->
  cv.split m = [cv.per_pixel m 1 (fun i => [cv.at_ m i 0]);
                cv.per_pixel m 1 (fun i => [cv.at_ m i 1])].
Proof. intros H. unfold cv.split. rewrite H. reflexivity. Qed.

Lemma vec_at_split_2 (m : cv.Mat) :
  cv.channels m = 2 ->
  cv.vec_at (cv.split m) 0 = cv.per_pixel m 1 (fun i => [cv.at_ m i 0]) /\
  cv.vec_at (cv.split m) 1 = cv.per_pixel m 1 (fun i => [cv.at_ m i 1]).
Proof. intros H. rewrite (split_2 m H). split; reflexivity. Qed.

(** Two matrices of the same size and depth whose pixels agree on the
    samples a kernel reads convert to the same matrix. *)
Lemma per_pixel_ext (m1 m2 : cv.Mat) (dcn : nat) (f1 f2 : nat -> list Z) :
  cv.rows m1 = cv.rows m2 -> cv.cols m1 = cv.cols m2 -> cv.depth m1 = cv.depth m2 ->
  (forall i, i < cv.total m1 -> f1 i = f2 i) ->
  cv.per_pixel m1 dcn f1 = cv.per_pixel m2 dcn f2.
Proof.
  intros Hrows Hcols Hdepth Hf. unfold cv.per_pixel, cv.total in *.
  rewrite <- Hrows, <- Hcols, <- Hdepth. f_equal.
  apply flat_map_ext_in. intros i Hi. apply in_seq in Hi. apply Hf. lia.
Qed.

Lemma uv_dummy_of_2 (m : cv.Mat) :
  cv.channels m = 2 ->
  uv_dummy_of m = cv.zeros (cv.rows m, cv.cols m) (cv.depth m, 1).
Proof.
  intros Hc. unfold uv_dummy_of.
  destruct (vec_at_split_2 _ Hc) as [-> ->]. reflexivity.
Qed.

(** The merge of lines 100 to 108 goes through, and gives the input's
    channel 0 with two zero channels. *)
Lemma yuv_image_of_2 (m : cv.Mat) :
  cv.channels m = 2 ->
  yuv_image_of m = inr (cv.per_pixel m 3 (fun i => [cv.at_ m i 0; 0%Z; 0%Z])).
Proof.
  intros Hc. unfold yuv_image_of.
  destruct (vec_at_split_2 _ Hc) as [-> ->].
  unfold cv.merge, cv.same_plane. simpl.
  rewrite !Nat.eqb_refl, !depth_eqb_refl. simpl. f_equal.
  apply per_pixel_ext; try reflexivity.
  intros i Hi. rewrite total_per_pixel in Hi.
  rewrite pixel_per_pixel by (auto; reflexivity).
  change (cv.zeros _ _) with (cv.zeros (cv.rows m, cv.cols m) (cv.depth m, 1)).
  rewrite pixel_zeros by exact Hi.
  reflexivity.
Qed.

Section Kernels.

Context {arith : cv.ColorArith}.

Lemma cvtColor_kernel_shape (src : cv.Mat) (code : cv.ColorConversionCodes) :
  cv.rows (cv.cvtColor_kernel src code) = cv.rows src /\
  cv.cols (cv.cvtColor_kernel src code) = cv.cols src /\
  cv.depth (cv.cvtColor_kernel src code) = cv.depth src /\
  cv.continuous (cv.cvtColor_kernel src code).
Proof.
  destruct code; simpl; repeat split;
    apply continuous_per_pixel; intros i; try reflexivity.
  destruct (cv.yuv2bgr _ _ _ _) as [[b g] r]. reflexivity.
Qed.

(** [cv::cvtColor] on a channel count its code takes. *)
Lemma cvtColor_run (src : cv.Mat) (code : cv.ColorConversionCodes) :
  cv.scn_ok code (cv.channels src) = true ->
  cv.cvtColor src code =
    if cvtColor_accepts src
    then inr (cv.cvtColor_kernel src code)
    else inl (refusal src).
Proof.
  intros Hscn. unfold cv.cvtColor, cv.cvtColor_check, cvtColor_accepts, refusal.
  rewrite Hscn.
  destruct (cv.is_empty src); simpl; [reflexivity|].
  destruct (cv.depth_supported (cv.depth src)); reflexivity.
Qed.

Lemma cvtColor_bgr_ext (m1 m2 : cv.Mat) (code : cv.ColorConversionCodes) :
  cv.rows m1 = cv.rows m2 -> cv.cols m1 = cv.cols m2 -> cv.depth m1 = cv.depth m2 ->
  (forall i c, i < cv.total m1 -> c < 3 -> cv.at_ m1 i c = cv.at_ m2 i c) ->
  cv.cvtColor_kernel m1 code = cv.cvtColor_kernel m2 code.
Proof.
  intros Hrows Hcols Hdepth Hat.
  destruct code; simpl; apply per_pixel_ext; auto; intros i Hi;
    rewrite ?(Hat i 0), ?(Hat i 1), ?(Hat i 2), ?Hdepth by lia; reflexivity.
Qed.

(** Dropping the alpha channel first does not change the luma. *)
Lemma gray_after_dropping_alpha (m : cv.Mat) :
  cv.cvtColor_kernel (cv.cvtColor_kernel m cv.COLOR_BGRA2BGR) cv.COLOR_BGR2GRAY =
  cv.cvtColor_kernel m cv.COLOR_BGRA2GRAY.
Proof.
  simpl. apply per_pixel_ext; try reflexivity.
  intros i Hi. rewrite total_per_pixel in Hi.
  rewrite !at_per_pixel by (auto; reflexivity).
  reflexivity.
Qed.

End Kernels.

(** ** The branches of [convert] *)

Section Branches.

Context {arith : cv.ColorArith} {bridge : cv_bridge.Bridge}.
Variable self : ImageToggleService.
Variable cv_ptr : CvImage.

Let input_image := image cv_ptr.
Let channels := cv.channels (image cv_ptr).

Ltac enter Hg Hc :=
  unfold channels, input_image in *;
  unfold convert, bind, read_use_grayscale; cbv beta;
  rewrite Hg, Hc.

Ltac branch Hg Hc := enter Hg Hc; reflexivity.

Ltac kernel_branch Hg Hc code :=
  enter Hg Hc;
  rewrite (cvtColor_run (image cv_ptr) code) by (rewrite Hc; reflexivity);
  destruct (cvtColor_accepts (image cv_ptr)); reflexivity.

Lemma convert_gray_3 :
  use_grayscale_ self = true -> channels = 3 ->
  convert cv_ptr self =
    if cvtColor_accepts input_image
    then (inr (set_image (set_encoding cv_ptr "mono8")
                         (cv.cvtColor_kernel input_image cv.COLOR_BGR2GRAY)), self)
    else (inl (CvException (refusal input_image)), self).
Proof. intros Hg Hc. kernel_branch Hg Hc cv.COLOR_BGR2GRAY. Qed.

Lemma convert_gray_4 :
  use_grayscale_ self = true -> channels = 4 ->
  convert cv_ptr self =
    if cvtColor_accepts input_image
    then (inr (set_image (set_encoding cv_ptr "mono8")
                         (cv.cvtColor_kernel input_image cv.COLOR_BGRA2GRAY)), self)
    else (inl (CvException (refusal input_image)), self).
Proof. intros Hg Hc. kernel_branch Hg Hc cv.COLOR_BGRA2GRAY. Qed.

Lemma convert_gray_2 :
  use_grayscale_ self = true -> channels = 2 ->
  convert cv_ptr self =
    (inr (set_image (set_encoding cv_ptr "mono8")
                    (cv.vec_at (cv.split input_image) 0)),
     logged INFO "Processing 2-channel YUV image for grayscale." self).
Proof. intros Hg Hc. branch Hg Hc. Qed.

Lemma convert_gray_1 :
  use_grayscale_ self = true -> channels = 1 ->
  convert cv_ptr self =
    (inr (set_image (set_encoding cv_ptr "mono8") input_image),
     logged INFO "Image is already grayscale." self).
Proof. intros Hg Hc. branch Hg Hc. Qed.

Lemma convert_color_1 :
  use_grayscale_ self = false -> channels = 1 ->
  convert cv_ptr self =
    if cvtColor_accepts input_image
    then (inr (set_image (set_encoding cv_ptr "bgr8")
                         (cv.cvtColor_kernel input_image cv.COLOR_GRAY2BGR)), self)
    else (inl (CvException (refusal input_image)), self).
Proof. intros Hg Hc. kernel_branch Hg Hc cv.COLOR_GRAY2BGR. Qed.

Lemma convert_color_3 :
  use_grayscale_ self = false -> channels = 3 ->
  convert cv_ptr self =
    (inr (set_image (set_encoding cv_ptr "bgr8") input_image), self).
Proof. intros Hg Hc. branch Hg Hc. Qed.

Lemma convert_color_4 :
  use_grayscale_ self = false -> channels = 4 ->
  convert cv_ptr self =
    if cvtColor_accepts input_image
    then (inr (set_image (set_encoding cv_ptr "bgr8")
                         (cv.cvtColor_kernel input_image cv.COLOR_BGRA2BGR)), self)
    else (inl (CvException (refusal input_image)), self).
Proof. intros Hg Hc. kernel_branch Hg Hc cv.COLOR_BGRA2BGR. Qed.

(** The 2-channel colour branch, call by call. *)
Lemma convert_color_2_calls :
  use_grayscale_ self = false -> channels = 2 ->
  convert cv_ptr self =
    match yuv_image_of input_image with
    | inl e => (inl (CvException e),
                logged INFO "Processing 2-channel YUV image for color." self)
    | inr yuv_image =>
        match cv.cvtColor yuv_image cv.COLOR_YUV2BGR with
        | inl e => (inl (CvException e),
                    logged INFO "Processing 2-channel YUV image for color." self)
        | inr processed_image =>
            (inr (set_image (set_encoding cv_ptr "bgr8") processed_image),
             logged INFO "Processing 2-channel YUV image for color." self)
        end
    end.
Proof.
  intros Hg Hc. enter Hg Hc.
  change (cv.merge _) with (yuv_image_of (image cv_ptr)).
  destruct (yuv_image_of (image cv_ptr)) as [e | yuv_image]; [reflexivity|].
  simpl. destruct (cv.cvtColor yuv_image cv.COLOR_YUV2BGR); reflexivity.
Qed.

Lemma convert_color_2 :
  use_grayscale_ self = false -> channels = 2 ->
  convert cv_ptr self =
    if cvtColor_accepts input_image
    then (inr (set_image (set_encoding cv_ptr "bgr8")
                 (cv.cvtColor_kernel
                    (cv.per_pixel input_image 3
                                  (fun i => [cv.at_ input_image i 0; 0%Z; 0%Z]))
                    cv.COLOR_YUV2BGR)),
          logged INFO "Processing 2-channel YUV image for color." self)
    else (inl (CvException (refusal input_image)),
          logged INFO "Processing 2-channel YUV image for color." self).
Proof.
  intros Hg Hc. rewrite (convert_color_2_calls Hg Hc).
  unfold channels, input_image in *.
  rewrite (yuv_image_of_2 _ Hc), cvtColor_run by reflexivity.
  change (cvtColor_accepts (cv.per_pixel (image cv_ptr) 3 _))
    with (cvtColor_accepts (image cv_ptr)).
  destruct (cvtColor_accepts (image cv_ptr)); reflexivity.
Qed.

Lemma convert_unsupported :
  ~ In channels supported ->
  convert cv_ptr self =
    (inl (UnsupportedChannels channels),
     logged ERROR ("Unsupported number of channels: " ++ fmt_d channels) self).
Proof.
  intros Hc.
  assert (H1 : (channels =? 1) = false) by (apply Nat.eqb_neq; intros E; apply Hc; rewrite E; simpl; tauto).
  assert (H2 : (channels =? 2) = false) by (apply Nat.eqb_neq; intros E; apply Hc; rewrite E; simpl; tauto).
  assert (H3 : (channels =? 3) = false) by (apply Nat.eqb_neq; intros E; apply Hc; rewrite E; simpl; tauto).
  assert (H4 : (channels =? 4) = false) by (apply Nat.eqb_neq; intros E; apply Hc; rewrite E; simpl; tauto).
  unfold channels in *.
  unfold convert, bind, read_use_grayscale; cbv beta.
  rewrite H1, H2, H3, H4.
  destruct (use_grayscale_ self); reflexivity.
Qed.

End Branches.

(** ** The conversion *)

Section Conversion.

Context {arith : cv.ColorArith} {bridge : cv_bridge.Bridge}.

Ltac settle :=
  simpl; rewrite ?app_nil_r; repeat split; auto;
  try (intros _; apply continuous_per_pixel; intros i; try reflexivity;
       destruct (cv.yuv2bgr _ _ _ _) as [[b g] r]; reflexivity).

(** What [convert] yields for a frame its mode converts: the image, and
    the note of the branch if it has one. *)
Lemma convert_supported (self : ImageToggleService) (cv_ptr : CvImage) :
  In (cv.channels (image cv_ptr)) supported ->
  convertible (use_grayscale_ self) (image cv_ptr) = true ->
  exists out lines,
    fst (convert cv_ptr self) = inr out /\
    header out = header cv_ptr /\
    encoding out = (if use_grayscale_ self then "mono8" else "bgr8")%string /\
    cv.channels (image out) = (if use_grayscale_ self then 1 else 3) /\
    cv.rows (image out) = cv.rows (image cv_ptr) /\
    cv.cols (image out) = cv.cols (image cv_ptr) /\
    cv.depth (image out) = cv.depth (image cv_ptr) /\
    (cv.continuous (image cv_ptr) -> cv.continuous (image out)) /\
    use_grayscale_ (snd (convert cv_ptr self)) = use_grayscale_ self /\
    image_publisher_ (snd (convert cv_ptr self)) = image_publisher_ self /\
    get_logger (snd (convert cv_ptr self)) = get_logger self ++ lines /\
    Forall (fun l => fst l = INFO) lines.
Proof.
  intros Hin Hconv. unfold convertible, uses_cvtColor in Hconv.
  destruct (use_grayscale_ self) eqn:Hg;
    destruct Hin as [Hc | [Hc | [Hc | [Hc | []]]]]; symmetry in Hc;
    rewrite Hc in Hconv; simpl in Hconv.
  - rewrite (convert_gray_1 _ _ Hg Hc). eexists; eexists [_]. settle.
  - rewrite (convert_gray_2 _ _ Hg Hc).
    destruct (vec_at_split_2 _ Hc) as [-> _]. eexists; eexists [_]. settle.
  - rewrite (convert_gray_3 _ _ Hg Hc), Hconv. eexists; exists []. settle.
  - rewrite (convert_gray_4 _ _ Hg Hc), Hconv. eexists; exists []. settle.
  - rewrite (convert_color_1 _ _ Hg Hc), Hconv. eexists; exists []. settle.
  - rewrite (convert_color_2 _ _ Hg Hc), Hconv. eexists; eexists [_]. settle.
  - rewrite (convert_color_3 _ _ Hg Hc). eexists; exists []. settle.
  - rewrite (convert_color_4 _ _ Hg Hc), Hconv. eexists; exists []. settle.
Qed.

(** What [convert] does with a frame its mode does not convert: the
    exception of [cv::cvtColor] leaves it. *)
Lemma convert_refused (self : ImageToggleService) (cv_ptr : CvImage) :
  In (cv.channels (image cv_ptr)) supported ->
  convertible (use_grayscale_ self) (image cv_ptr) = false ->
  exists lines,
    fst (convert cv_ptr self) = inl (CvException (refusal (image cv_ptr))) /\
    use_grayscale_ (snd (convert cv_ptr self)) = use_grayscale_ self /\
    image_publisher_ (snd (convert cv_ptr self)) = image_publisher_ self /\
    get_logger (snd (convert cv_ptr self)) = get_logger self ++ lines /\
    Forall (fun l => fst l = INFO) lines.
Proof.
  intros Hin Hconv. unfold convertible, uses_cvtColor in Hconv.
  destruct (use_grayscale_ self) eqn:Hg;
    destruct Hin as [Hc | [Hc | [Hc | [Hc | []]]]]; symmetry in Hc;
    rewrite Hc in Hconv; simpl in Hconv; try discriminate.
  - rewrite (convert_gray_3 _ _ Hg Hc), Hconv. exists []. settle.
  - rewrite (convert_gray_4 _ _ Hg Hc), Hconv. exists []. settle.
  - rewrite (convert_color_1 _ _ Hg Hc), Hconv. exists []. settle.
  - rewrite (convert_color_2 _ _ Hg Hc), Hconv. eexists [_]. settle.
  - rewrite (convert_color_4 _ _ Hg Hc), Hconv. exists []. settle.
Qed.

(** A frame [convert] yields came through a branch that converts it. *)
Lemma convert_yields (self : ImageToggleService) (cv_ptr out : CvImage) :
  fst (convert cv_ptr self) = inr out ->
  In (cv.channels (image cv_ptr)) supported /\
  convertible (use_grayscale_ self) (image cv_ptr) = true.
Proof.
  intros Hrun.
  destruct (in_dec Nat.eq_dec (cv.channels (image cv_ptr)) supported) as [Hin | Hout].
  - split; [exact Hin|].
    destruct (convertible (use_grayscale_ self) (image cv_ptr)) eqn:Hconv; [reflexivity|].
    destruct (convert_refused self cv_ptr Hin Hconv) as (lines & Hthrow & _).
    rewrite Hthrow in Hrun. discriminate.
  - rewrite (convert_unsupported _ _ Hout) in Hrun. discriminate.
Qed.

(** [convert] leaves the flag and the publisher as they are, whatever the
    frame. *)
Lemma convert_frame (cv_ptr : CvImage) (self : ImageToggleService) :
  use_grayscale_ (snd (convert cv_ptr self)) = use_grayscale_ self /\
  image_publisher_ (snd (convert cv_ptr self)) = image_publisher_ self.
Proof.
  destruct (in_dec Nat.eq_dec (cv.channels (image cv_ptr)) supported) as [Hin | Hout].
  - destruct (convertible (use_grayscale_ self) (image cv_ptr)) eqn:Hconv.
    + destruct (convert_supported self cv_ptr Hin Hconv)
        as (out & lines & _ & _ & _ & _ & _ & _ & _ & _ & Hflag & Hpub & _).
      split; assumption.
    + destruct (convert_refused self cv_ptr Hin Hconv)
        as (lines & _ & Hflag & Hpub & _).
      split; assumption.
  - rewrite (convert_unsupported _ _ Hout). split; reflexivity.
Qed.

(** What [convert] writes to the log: the [ERROR] diagnostic when it has no
    branch for the frame, and nothing but [INFO] notes otherwise. *)
Lemma convert_log (cv_ptr : CvImage) (self : ImageToggleService) :
  exists lines,
    get_logger (snd (convert cv_ptr self)) = get_logger self ++ lines /\
    if existsb (Nat.eqb (cv.channels (image cv_ptr))) supported
    then Forall (fun l => fst l = INFO) lines
    else exists line, lines = [(ERROR, line)].
Proof.
  destruct (in_dec Nat.eq_dec (cv.channels (image cv_ptr)) supported) as [Hin | Hout].
  - assert (Hex : existsb (Nat.eqb (cv.channels (image cv_ptr))) supported = true)
      by (apply existsb_exists; eexists; split; [exact Hin | apply Nat.eqb_refl]).
    rewrite Hex.
    destruct (convertible (use_grayscale_ self) (image cv_ptr)) eqn:Hconv.
    + destruct (convert_supported self cv_ptr Hin Hconv)
        as (out & lines & _ & _ & _ & _ & _ & _ & _ & _ & _ & _ & Hlog & Hsev).
      exists lines. auto.
    + destruct (convert_refused self cv_ptr Hin Hconv)
        as (lines & _ & _ & _ & Hlog & Hsev).
      exists lines. auto.
  - assert (Hex : existsb (Nat.eqb (cv.channels (image cv_ptr))) supported = false).
    { destruct (existsb _ supported) eqn:Hex; [|reflexivity].
      apply existsb_exists in Hex. destruct Hex as (n & Hn & Heq).
      apply Nat.eqb_eq in Heq. rewrite Heq in Hout. contradiction. }
    rewrite Hex, (convert_unsupported _ _ Hout). eexists [_]. simpl. eauto.
Qed.

(** The outcome of [convert] hangs on the state through the flag only. *)
Lemma convert_fst_flag (cv_ptr : CvImage) (s1 s2 : ImageToggleService) :
  use_grayscale_ s1 = use_grayscale_ s2 ->
  fst (convert cv_ptr s1) = fst (convert cv_ptr s2).
Proof.
  intros Heq.
  destruct (in_dec Nat.eq_dec (cv.channels (image cv_ptr)) supported) as [Hin | Hout].
  - destruct (use_grayscale_ s1) eqn:Hg; symmetry in Heq;
      destruct Hin as [Hc | [Hc | [Hc | [Hc | []]]]]; symmetry in Hc.
    + rewrite (convert_gray_1 s1 _ Hg Hc), (convert_gray_1 s2 _ Heq Hc). reflexivity.
    + rewrite (convert_gray_2 s1 _ Hg Hc), (convert_gray_2 s2 _ Heq Hc). reflexivity.
    + rewrite (convert_gray_3 s1 _ Hg Hc), (convert_gray_3 s2 _ Heq Hc).
      destruct (cvtColor_accepts _); reflexivity.
    + rewrite (convert_gray_4 s1 _ Hg Hc), (convert_gray_4 s2 _ Heq Hc).
      destruct (cvtColor_accepts _); reflexivity.
    + rewrite (convert_color_1 s1 _ Hg Hc), (convert_color_1 s2 _ Heq Hc).
      destruct (cvtColor_accepts _); reflexivity.
    + rewrite (convert_color_2 s1 _ Hg Hc), (convert_color_2 s2 _ Heq Hc).
      destruct (cvtColor_accepts _); reflexivity.
    + rewrite (convert_color_3 s1 _ Hg Hc), (convert_color_3 s2 _ Heq Hc). reflexivity.
    + rewrite (convert_color_4 s1 _ Hg Hc), (convert_color_4 s2 _ Heq Hc).
      destruct (cvtColor_accepts _); reflexivity.
  - rewrite !(convert_unsupported _ _ Hout). reflexivity.
Qed.

End Conversion.
(** ** The callback around the conversion *)

Section Callback.

Context {arith : cv.ColorArith} {bridge : cv_bridge.Bridge}.

Lemma imageCallback_decoded (msg : sensor_msgs.Image) (cv_ptr : CvImage)
      (self : ImageToggleService) :
  toCvCopy msg (sensor_msgs.encoding msg) = inr cv_ptr ->
  imageCallback msg self =
    match convert cv_ptr self with
    | (inr out, self') => publish (toImageMsg out) self'
    | (inl e, self') => (inl e, self')
    end.
Proof.
  intros Hdec. unfold imageCallback. rewrite Hdec.
  unfold bind at 1. unfold ret at 1. unfold bind.
  destruct (convert cv_ptr self) as [[e | out] self']; reflexivity.
Qed.

Lemma imageCallback_undecoded (msg : sensor_msgs.Image) (what : string)
      (self : ImageToggleService) :
  toCvCopy msg (sensor_msgs.encoding msg) = inl what ->
  imageCallback msg self =
    (inl (CvBridgeException what),
     logged ERROR ("cv_bridge exception: " ++ what) self).
Proof.
  intros Hdec. unfold imageCallback. rewrite Hdec. reflexivity.
Qed.

Lemma imageCallback_flag (msg : sensor_msgs.Image) (self : ImageToggleService) :
  use_grayscale_ (snd (imageCallback msg self)) = use_grayscale_ self.
Proof.
  destruct (toCvCopy msg (sensor_msgs.encoding msg)) as [what | cv_ptr] eqn:Hdec.
  - rewrite (imageCallback_undecoded _ _ _ Hdec). reflexivity.
  - rewrite (imageCallback_decoded _ _ _ Hdec).
    destruct (convert_frame cv_ptr self) as [Hflag _].
    destruct (convert cv_ptr self) as [[e | out] self']; exact Hflag.
Qed.

Lemma handleToggleRequest_run (request : std_srvs.Request) (self : ImageToggleService) :
  handleToggleRequest request self =
    (inr {| std_srvs.success := true;
            std_srvs.message := if std_srvs.data request
                                then "Switched to grayscale mode."
                                else "Switched to color mode." |},
     {| use_grayscale_ := std_srvs.data request;
        get_logger := get_logger self ++
                      [(INFO, if std_srvs.data request
                              then "Switched to grayscale mode."
                              else "Switched to color mode.")%string];
        image_publisher_ := image_publisher_ self |}).
Proof. reflexivity. Qed.

Lemma spin_app (evs evs' : list Event) (self : ImageToggleService) :
  spin (evs ++ evs') self = spin evs' (spin evs self).
Proof. apply fold_left_app. Qed.

Lemma spin_flag (evs : list Event) (self : ImageToggleService) :
  use_grayscale_ (spin evs self) = requested evs (use_grayscale_ self).
Proof.
  revert self; induction evs as [|ev evs IH]; intros self.
  - reflexivity.
  - simpl. rewrite IH. f_equal.
    destruct ev as [msg | request]; simpl.
    + apply imageCallback_flag.
    + reflexivity.
Qed.

End Callback.

(** ** The specification of the conversion *)

Section Specification.

Context {arith : cv.ColorArith} {bridge : cv_bridge.Bridge}.


(** C2. For every frame whose channel count is none of 1, 2, 3, 4, under
    either mode, the conversion stops with [UnsupportedChannels n], [n]
    the frame's channel count; the node's state differs from the one
    before only by the diagnostic line, and when such a frame reaches
    [imageCallback] nothing is published. *)
Theorem convert_rejects_unsupported (self : ImageToggleService) (cv_ptr : CvImage) :
  ~ In (cv.channels (image cv_ptr)) supported ->
  let n := cv.channels (image cv_ptr) in
  convert cv_ptr self =
    (inl (UnsupportedChannels n),
     logged ERROR ("Unsupported number of channels: " ++ fmt_d n) self) /\
  forall msg,
    toCvCopy msg (sensor_msgs.encoding msg) = inr cv_ptr ->
    fst (imageCallback msg self) = inl (UnsupportedChannels n) /\
    image_publisher_ (snd (imageCallback msg self)) = image_publisher_ self /\
    use_grayscale_ (snd (imageCallback msg self)) = use_grayscale_ self.
Proof.
  intros Hout n. split.
  - apply convert_unsupported. exact Hout.
  - intros msg Hdec.
    rewrite (imageCallback_decoded _ _ _ Hdec), (convert_unsupported _ _ Hout).
    repeat split.
Qed.

(** C3. A frame already in the target representation comes out with the
    pixels it came in with: a 1-channel frame in grayscale mode and a
    3-channel frame in colour mode keep their matrix, hence their pixel
    buffer. *)
Theorem convert_target_format_is_noop (self : ImageToggleService) (cv_ptr : CvImage) :
  (use_grayscale_ self = true /\ cv.channels (image cv_ptr) = 1) \/
  (use_grayscale_ self = false /\ cv.channels (image cv_ptr) = 3) ->
  exists out,
    fst (convert cv_ptr self) = inr out /\
    cv.data (image out) = cv.data (image cv_ptr) /\
    image out = image cv_ptr.
Proof.
  intros [[Hg Hc] | [Hg Hc]].
  - rewrite (convert_gray_1 _ _ Hg Hc). eexists. repeat split.
  - rewrite (convert_color_3 _ _ Hg Hc). eexists. repeat split.
Qed.

(** C10. Every conversion keeps the frame's dimensions: the frame
    [convert] yields for an input with 1, 2, 3 or 4 channels has the rows
    and the columns of the input, and so has the message built from it.
    It yields one whenever the mode converts the input. *)
Theorem convert_keeps_dimensions (self : ImageToggleService) (cv_ptr : CvImage) :
  In (cv.channels (image cv_ptr)) supported ->
  (convertible (use_grayscale_ self) (image cv_ptr) = true ->
   exists out, fst (convert cv_ptr self) = inr out) /\
  forall out,
    fst (convert cv_ptr self) = inr out ->
    cv.cols (image out) = cv.cols (image cv_ptr) /\
    cv.rows (image out) = cv.rows (image cv_ptr) /\
    sensor_msgs.width (toImageMsg out) = cv.cols (image cv_ptr) /\
    sensor_msgs.height (toImageMsg out) = cv.rows (image cv_ptr).
Proof.
  intros Hin. split.
  - intros Hconv.
    destruct (convert_supported self cv_ptr Hin Hconv) as (out & lines & Hrun & _).
    exists out. exact Hrun.
  - intros out Hrun.
    destruct (convert_yields _ _ _ Hrun) as [_ Hconv].
    destruct (convert_supported self cv_ptr Hin Hconv)
      as (out' & lines & Hrun' & _ & _ & _ & Hrows & Hcols & _).
    rewrite Hrun in Hrun'. injection Hrun' as <-.
    simpl. auto.
Qed.

End Specification.

(** ** The pixels of the converted frame *)

Lemma luma_interleave {B : Type} (g : Z -> list B) (ys uvs : list Z) :
  length ys = length uvs ->
  flat_map (fun i => g (nth (i * 2 + 0) (interleave ys uvs) 0%Z)) (seq 0 (length ys)) =
  flat_map g ys.
Proof.
  revert uvs; induction ys as [|y ys IH]; intros [|uv uvs] Hlen;
    simpl in Hlen; try discriminate; [reflexivity|].
  simpl length. simpl seq. simpl flat_map at 1.
  rewrite flat_map_seq_shift. simpl. f_equal.
  apply IH. lia.
Qed.

Section Pixels.

Context {arith : cv.ColorArith} {bridge : cv_bridge.Bridge}.

(** C4. For every 1-channel frame in colour mode, the frame the conversion
    yields is tagged "bgr8", has three channels and the input's
    dimensions, and the three samples of each of its pixels equal the one
    sample of that pixel in the input; on a buffer that fits its header,
    the output buffer is the input buffer with every sample written three
    times.  The conversion yields a frame whenever [cv::cvtColor] takes the
    input (it is not empty and has depth 8U, 16U or 32F). *)
Theorem convert_gray_to_color_replicates (self : ImageToggleService) (cv_ptr : CvImage) :
  use_grayscale_ self = false ->
  cv.channels (image cv_ptr) = 1 ->
  (cvtColor_accepts (image cv_ptr) = true ->
   exists out, fst (convert cv_ptr self) = inr out) /\
  forall out,
    fst (convert cv_ptr self) = inr out ->
    encoding out = "bgr8"%string /\
    cv.channels (image out) = 3 /\
    cv.rows (image out) = cv.rows (image cv_ptr) /\
    cv.cols (image out) = cv.cols (image cv_ptr) /\
    (forall i c, i < cv.total (image cv_ptr) -> c < 3 ->
                 cv.at_ (image out) i c = cv.at_ (image cv_ptr) i 0) /\
    (cv.continuous (image cv_ptr) ->
     cv.data (image out) = flat_map (fun v => [v; v; v]) (cv.data (image cv_ptr))).
Proof.
  intros Hg Hc. rewrite (convert_color_1 _ _ Hg Hc).
  destruct (cvtColor_accepts (image cv_ptr)).
  2: { split; [discriminate | intros out Hrun; discriminate Hrun]. }
  split; [intros _; eexists; reflexivity|].
  intros out Hrun. simpl in Hrun. injection Hrun as <-. simpl. repeat split.
  - intros i c Hi Hlt.
    rewrite at_per_pixel by (auto; reflexivity).
    destruct c as [|[|[|c]]]; simpl; try reflexivity. lia.
  - unfold cv.continuous. rewrite Hc, Nat.mul_1_r. intros Hlen.
    rewrite <- Hlen, <- (flat_map_nth_seq (fun v => [v; v; v])).
    apply flat_map_ext. intros i. unfold cv.at_.
    rewrite Hc, Nat.mul_1_r, Nat.add_0_r. reflexivity.
Qed.

(** C6. For every 2-channel frame in grayscale mode the output is tagged
    "mono8", has one channel and the input's dimensions, and its sample at
    each pixel is the input's channel 0 at that pixel; when the input
    buffer interleaves a luminance plane with a second plane, the output
    buffer is the luminance plane, whatever the second plane holds. *)
Theorem convert_yuv_to_gray_takes_luma (self : ImageToggleService) (cv_ptr : CvImage) :
  use_grayscale_ self = true ->
  cv.channels (image cv_ptr) = 2 ->
  exists out,
    fst (convert cv_ptr self) = inr out /\
    encoding out = "mono8"%string /\
    cv.channels (image out) = 1 /\
    cv.rows (image out) = cv.rows (image cv_ptr) /\
    cv.cols (image out) = cv.cols (image cv_ptr) /\
    length (cv.data (image out)) = cv.total (image cv_ptr) /\
    (forall i, i < cv.total (image cv_ptr) ->
               nth i (cv.data (image out)) 0%Z = cv.at_ (image cv_ptr) i 0) /\
    (forall ys uvs,
        length ys = cv.total (image cv_ptr) ->
        length uvs = cv.total (image cv_ptr) ->
        cv.data (image cv_ptr) = interleave ys uvs ->
        cv.data (image out) = ys).
Proof.
  intros Hg Hc. rewrite (convert_gray_2 _ _ Hg Hc).
  destruct (vec_at_split_2 _ Hc) as [-> _].
  eexists. split; [reflexivity|]. simpl. repeat split.
  - rewrite (length_flat_map_blocks 1) by reflexivity. apply Nat.mul_1_r.
  - intros i Hi.
    rewrite <- (Nat.add_0_r i) at 1. rewrite <- (Nat.mul_1_r i) at 1.
    rewrite (nth_flat_map_blocks 0%Z 1) by (auto; reflexivity).
    reflexivity.
  - intros ys uvs Hys Huvs Hdata. unfold cv.at_.
    rewrite Hc, Hdata, <- Hys.
    apply plane0_interleave. congruence.
Qed.

End Pixels.

Section Reconstruction.

Context {arith : cv.ColorArith} {bridge : cv_bridge.Bridge}.

(** C5. For every 2-channel frame in colour mode, the frame the conversion
    yields is tagged "bgr8", has three channels, and is the YUV-to-BGR
    conversion (line 111) of the image merged (lines 107 and 108) from the
    input's channel 0 and, twice, the plane of line 104: a plane of the
    input's size and depth that holds a zero for every pixel.  The merged
    image has the input's dimensions; its channel 0 is the input's channel
    0 (the luminance, kept as it is) and its channels 1 and 2 are zero at
    every pixel; so each output pixel is the conversion of the triple
    (input channel 0, 0, 0), and the input's channel 1 has no part in it.
    The conversion yields a frame whenever [cv::cvtColor] takes the input
    (it is not empty and has depth 8U, 16U or 32F). *)
Theorem convert_yuv_to_color_zero_chroma (self : ImageToggleService) (cv_ptr : CvImage) :
  use_grayscale_ self = false ->
  cv.channels (image cv_ptr) = 2 ->
  let input_image := image cv_ptr in
  let uv_dummy := uv_dummy_of input_image in
  (cvtColor_accepts input_image = true ->
   exists out, fst (convert cv_ptr self) = inr out) /\
  forall out,
    fst (convert cv_ptr self) = inr out ->
    exists yuv_image,
      encoding out = "bgr8"%string /\
      cv.channels (image out) = 3 /\
      cv.size uv_dummy = cv.size input_image /\
      cv.type uv_dummy = (cv.depth input_image, 1) /\
      cv.data uv_dummy = repeat 0%Z (cv.total input_image) /\
      cv.merge [cv.vec_at (cv.split input_image) 0; uv_dummy; uv_dummy] = inr yuv_image /\
      cv.cvtColor yuv_image cv.COLOR_YUV2BGR = inr (image out) /\
      cv.channels yuv_image = 3 /\
      cv.rows yuv_image = cv.rows input_image /\
      cv.cols yuv_image = cv.cols input_image /\
      cv.continuous yuv_image /\
      (forall i, i < cv.total input_image ->
         cv.at_ yuv_image i 0 = cv.at_ input_image i 0 /\
         cv.at_ yuv_image i 1 = 0%Z /\
         cv.at_ yuv_image i 2 = 0%Z) /\
      (forall i, i < cv.total input_image ->
         (cv.at_ (image out) i 0, cv.at_ (image out) i 1, cv.at_ (image out) i 2) =
         cv.yuv2bgr (cv.depth input_image) (cv.at_ input_image i 0) 0%Z 0%Z) /\
      (forall ys uvs,
          length ys = cv.total input_image ->
          length uvs = cv.total input_image ->
          cv.data input_image = interleave ys uvs ->
          cv.data yuv_image = flat_map (fun y => [y; 0%Z; 0%Z]) ys).
Proof.
  intros Hg Hc input_image uv_dummy. subst input_image uv_dummy.
  rewrite (convert_color_2 _ _ Hg Hc).
  destruct (cvtColor_accepts (image cv_ptr)) eqn:Hacc.
  2: { split; [discriminate | intros out Hrun; discriminate Hrun]. }
  split; [intros _; eexists; reflexivity|].
  intros out Hrun. simpl in Hrun. injection Hrun as <-.
  set (yuv_image := cv.per_pixel (image cv_ptr) 3
                      (fun i => [cv.at_ (image cv_ptr) i 0; 0%Z; 0%Z])).
  assert (Hyuv : forall i, i < cv.total (image cv_ptr) ->
            cv.at_ yuv_image i 0 = cv.at_ (image cv_ptr) i 0 /\
            cv.at_ yuv_image i 1 = 0%Z /\
            cv.at_ yuv_image i 2 = 0%Z).
  { intros i Hi. unfold yuv_image.
    rewrite !at_per_pixel by (auto; reflexivity). repeat split. }
  exists yuv_image.
  split; [reflexivity|]. split; [reflexivity|].
  split; [rewrite (uv_dummy_of_2 _ Hc); reflexivity|].
  split; [rewrite (uv_dummy_of_2 _ Hc); reflexivity|].
  split; [rewrite (uv_dummy_of_2 _ Hc); simpl; unfold cv.total;
          rewrite Nat.mul_1_r; reflexivity|].
  split; [exact (yuv_image_of_2 _ Hc)|].
  split.
  { rewrite cvtColor_run by reflexivity.
    change (cvtColor_accepts yuv_image) with (cvtColor_accepts (image cv_ptr)).
    rewrite Hacc. reflexivity. }
  split; [reflexivity|]. split; [reflexivity|]. split; [reflexivity|].
  split; [apply continuous_per_pixel; reflexivity|].
  split; [exact Hyuv|].
  split.
  - intros i Hi. destruct (Hyuv i Hi) as (H0 & H1 & H2).
    simpl image. unfold cv.cvtColor_kernel.
    rewrite !at_per_pixel;
      try (intros j; destruct (cv.yuv2bgr _ _ _ _) as [[b g] r]; reflexivity);
      try lia; try exact Hi.
    rewrite H0, H1, H2.
    change (cv.depth yuv_image) with (cv.depth (image cv_ptr)).
    destruct (cv.yuv2bgr _ _ _ _) as [[b g] r]. reflexivity.
  - intros ys uvs Hys Huvs Hdata.
    unfold yuv_image. simpl. unfold cv.at_.
    rewrite Hc, Hdata, <- Hys.
    apply (luma_interleave (fun y => [y; 0%Z; 0%Z])). congruence.
Qed.

End Reconstruction.

(** ** The mode *)

Section Mode.

Context {arith : cv.ColorArith} {bridge : cv_bridge.Bridge}.

(** A frame that converts is published, once, after what was published
    before. *)
Lemma imageCallback_publishes (msg : sensor_msgs.Image) (cv_ptr out : CvImage)
      (self : ImageToggleService) :
  toCvCopy msg (sensor_msgs.encoding msg) = inr cv_ptr ->
  fst (convert cv_ptr self) = inr out ->
  fst (imageCallback msg self) = inr tt /\
  image_publisher_ (snd (imageCallback msg self)) =
    image_publisher_ self ++ [toImageMsg out].
Proof.
  intros Hdec Hrun. rewrite (imageCallback_decoded _ _ _ Hdec).
  destruct (convert_frame cv_ptr self) as [_ Hpub].
  destruct (convert cv_ptr self) as [[e | out'] self']; simpl in *.
  - discriminate.
  - injection Hrun as ->. rewrite Hpub. auto.
Qed.

(** C7. The control operation has no failing path: for every request with
    value [b] it yields a response with [success = true] and the message
    "Switched to grayscale mode." if [b] and "Switched to color mode."
    otherwise, and the flag equals [b] when it returns.  Sending the same
    request again yields the same response and leaves the flag, and what
    was published, as the first call left them. *)
Theorem handleToggleRequest_always_succeeds
        (request : std_srvs.Request) (self : ImageToggleService) :
  let b := std_srvs.data request in
  let ack := {| std_srvs.success := true;
                std_srvs.message := if b then "Switched to grayscale mode."
                                    else "Switched to color mode." |} in
  let once := snd (handleToggleRequest request self) in
  let twice := snd (handleToggleRequest request once) in
  fst (handleToggleRequest request self) = inr ack /\
  use_grayscale_ once = b /\
  image_publisher_ once = image_publisher_ self /\
  fst (handleToggleRequest request once) = inr ack /\
  use_grayscale_ twice = use_grayscale_ once /\
  image_publisher_ twice = image_publisher_ once.
Proof.
  intros b ack once twice. subst b ack once twice.
  rewrite !handleToggleRequest_run. simpl. repeat split.
Qed.

(** C8. The flag is cleared (colour mode) when the node is constructed;
    [imageCallback] never changes it, whether the frame is published,
    rejected for its channel count or fails to decode; and after any
    sequence of callbacks the flag is the value of the last toggle request
    of the sequence, or the value before the sequence if it has none. *)
Theorem mode_changes_only_by_toggle :
  use_grayscale_ ImageToggleService_init = false /\
  (forall msg self,
      use_grayscale_ (snd (imageCallback msg self)) = use_grayscale_ self) /\
  (forall cv_ptr self,
      use_grayscale_ (snd (convert cv_ptr self)) = use_grayscale_ self) /\
  (forall request self,
      use_grayscale_ (snd (handleToggleRequest request self)) = std_srvs.data request) /\
  (forall evs self,
      use_grayscale_ (spin evs self) = requested evs (use_grayscale_ self)) /\
  (forall evs,
      use_grayscale_ (spin evs ImageToggleService_init) = requested evs false).
Proof.
  split; [reflexivity|].
  split; [apply imageCallback_flag|].
  split; [intros cv_ptr self; apply convert_frame|].
  split; [reflexivity|].
  split; [apply spin_flag|].
  intros evs. apply spin_flag.
Qed.

(** Once grayscale has been requested, frames that arrive before the next
    request are converted in grayscale mode and leave the flag set. *)
Corollary toggle_then_frames (msgs : list sensor_msgs.Image) (self : ImageToggleService) :
  use_grayscale_
    (spin (Toggle {| std_srvs.data := true |} :: map Frame msgs) self) = true.
Proof.
  rewrite spin_flag. simpl.
  induction msgs as [|msg msgs IH]; simpl; auto.
Qed.

End Mode.

(** ** The callback, exit by exit *)

Section Exits.

Context {arith : cv.ColorArith} {bridge : cv_bridge.Bridge}.

Lemma supported_existsb (n : nat) :
  existsb (Nat.eqb n) supported = true <-> In n supported.
Proof.
  rewrite existsb_exists. split.
  - intros (m & Hm & Heq). apply Nat.eqb_eq in Heq. rewrite Heq. exact Hm.
  - intros Hin. eexists. split; [exact Hin | apply Nat.eqb_refl].
Qed.

Lemma accepted_decoded (msg : sensor_msgs.Image) (cv_ptr : CvImage) :
  toCvCopy msg (sensor_msgs.encoding msg) = inr cv_ptr ->
  (accepted msg = true <-> In (cv.channels (image cv_ptr)) supported).
Proof.
  intros Hdec. unfold accepted. rewrite Hdec. apply supported_existsb.
Qed.

Lemma publishes_decoded (use_grayscale : bool) (msg : sensor_msgs.Image)
      (cv_ptr : CvImage) :
  toCvCopy msg (sensor_msgs.encoding msg) = inr cv_ptr ->
  publishes use_grayscale msg =
  accepted msg && convertible use_grayscale (image cv_ptr).
Proof. intros Hdec. unfold publishes, accepted. rewrite Hdec. reflexivity. Qed.

Lemma publishes_accepted (use_grayscale : bool) (msg : sensor_msgs.Image) :
  publishes use_grayscale msg = true -> accepted msg = true.
Proof.
  unfold publishes, accepted.
  destruct (toCvCopy msg (sensor_msgs.encoding msg)); [discriminate|].
  intros H. apply andb_prop in H. tauto.
Qed.

(** What [imageCallback] publishes, as a list. *)
Lemma imageCallback_published (msg : sensor_msgs.Image) (self : ImageToggleService) :
  image_publisher_ (snd (imageCallback msg self)) =
  image_publisher_ self ++
  match toCvCopy msg (sensor_msgs.encoding msg) with
  | inr cv_ptr => match fst (convert cv_ptr self) with
                  | inr out => [toImageMsg out]
                  | inl _ => []
                  end
  | inl _ => []
  end.
Proof.
  destruct (toCvCopy msg (sensor_msgs.encoding msg)) as [what | cv_ptr] eqn:Hdec.
  - rewrite (imageCallback_undecoded _ _ _ Hdec). simpl. symmetry. apply app_nil_r.
  - rewrite (imageCallback_decoded _ _ _ Hdec).
    destruct (convert_frame cv_ptr self) as [_ Hpub].
    destruct (convert cv_ptr self) as [[e | out] self']; simpl in *; rewrite Hpub.
    + symmetry. apply app_nil_r.
    + reflexivity.
Qed.

(** What [imageCallback] logs. *)
Lemma imageCallback_logged (msg : sensor_msgs.Image) (self : ImageToggleService) :
  exists lines,
    get_logger (snd (imageCallback msg self)) = get_logger self ++ lines /\
    if accepted msg
    then Forall (fun l => fst l = INFO) lines
    else exists line, lines = [(ERROR, line)].
Proof.
  unfold accepted.
  destruct (toCvCopy msg (sensor_msgs.encoding msg)) as [what | cv_ptr] eqn:Hdec.
  - rewrite (imageCallback_undecoded _ _ _ Hdec). eexists [_]. simpl. eauto.
  - rewrite (imageCallback_decoded _ _ _ Hdec).
    destruct (convert_log cv_ptr self) as (lines & Hlog & Hsev).
    exists lines. split; [|exact Hsev].
    destruct (convert cv_ptr self) as [[e | out] self']; exact Hlog.
Qed.

(** How [imageCallback] ends. *)
Lemma imageCallback_ends (msg : sensor_msgs.Image) (self : ImageToggleService) :
  if accepted msg
  then if publishes (use_grayscale_ self) msg
       then fst (imageCallback msg self) = inr tt /\
            exists m, image_publisher_ (snd (imageCallback msg self)) =
                        image_publisher_ self ++ [m] /\ tagged m
       else (exists e, fst (imageCallback msg self) = inl (CvException e)) /\
            image_publisher_ (snd (imageCallback msg self)) = image_publisher_ self
  else ((exists what, fst (imageCallback msg self) = inl (CvBridgeException what)) \/
        (exists n, fst (imageCallback msg self) = inl (UnsupportedChannels n))) /\
       image_publisher_ (snd (imageCallback msg self)) = image_publisher_ self.
Proof.
  rewrite imageCallback_published.
  destruct (toCvCopy msg (sensor_msgs.encoding msg)) as [what | cv_ptr] eqn:Hdec.
  - unfold accepted. rewrite Hdec, (imageCallback_undecoded _ _ _ Hdec).
    simpl. rewrite app_nil_r. eauto.
  - pose proof (accepted_decoded msg cv_ptr Hdec) as Hacc.
    rewrite (publishes_decoded _ _ _ Hdec), (imageCallback_decoded _ _ _ Hdec).
    destruct (accepted msg); simpl.
    + assert (Hin : In (cv.channels (image cv_ptr)) supported) by (apply Hacc; reflexivity).
      destruct (convertible (use_grayscale_ self) (image cv_ptr)) eqn:Hconv.
      * destruct (convert_supported self cv_ptr Hin Hconv)
          as (out & lines & Hrun & _ & Henc & _).
        destruct (convert cv_ptr self) as [r self']. simpl in Hrun. subst r. simpl.
        split; [reflexivity|]. eexists. split; [reflexivity|].
        unfold tagged. simpl. rewrite Henc.
        destruct (use_grayscale_ self); auto.
      * destruct (convert_refused self cv_ptr Hin Hconv) as (lines & Hrun & _).
        destruct (convert cv_ptr self) as [r self']. simpl in Hrun. subst r. simpl.
        rewrite app_nil_r. eauto.
    + assert (Hout : ~ In (cv.channels (image cv_ptr)) supported)
        by (intros Hin; apply Hacc in Hin; discriminate).
      rewrite (convert_unsupported _ _ Hout). simpl. rewrite app_nil_r. eauto.
Qed.

End Exits.

(** ** The node over a run of callbacks *)

Section Run.

Context {arith : cv.ColorArith} {bridge : cv_bridge.Bridge}.

(** The log plays no part in what a callback does to the flag and to the
    publisher. *)
Lemma dispatch_observable (ev : Event) (s1 s2 : ImageToggleService) :
  observable s1 = observable s2 ->
  observable (dispatch ev s1) = observable (dispatch ev s2).
Proof.
  unfold observable. intros Heq. injection Heq as Hflag Hpub.
  destruct ev as [msg | request]; simpl.
  - rewrite !imageCallback_flag, !imageCallback_published, Hflag, Hpub.
    destruct (toCvCopy msg (sensor_msgs.encoding msg)) as [what | cv_ptr];
      [reflexivity|].
    rewrite (convert_fst_flag cv_ptr s1 s2 Hflag). reflexivity.
  - rewrite Hpub. reflexivity.
Qed.

Lemma spin_observable (evs : list Event) (s1 s2 : ImageToggleService) :
  observable s1 = observable s2 ->
  observable (spin evs s1) = observable (spin evs s2).
Proof.
  revert s1 s2; induction evs as [|ev evs IH]; intros s1 s2 Heq; simpl.
  - exact Heq.
  - apply IH, dispatch_observable, Heq.
Qed.

Lemma dispatch_published (ev : Event) (self : ImageToggleService) :
  exists new,
    image_publisher_ (dispatch ev self) = image_publisher_ self ++ new /\
    length new = published_count [ev] (use_grayscale_ self) /\
    length new <= (if accepted_event ev then 1 else 0) /\
    Forall tagged new.
Proof.
  destruct ev as [msg | request]; simpl.
  - pose proof (imageCallback_ends msg self) as Hend.
    pose proof (publishes_accepted (use_grayscale_ self) msg) as Hacc.
    destruct (accepted msg).
    + destruct (publishes (use_grayscale_ self) msg).
      * destruct Hend as (_ & m & Hpub & Htag). exists [m]. auto.
      * destruct Hend as (_ & Hpub). exists []. rewrite app_nil_r. auto.
    + destruct (publishes (use_grayscale_ self) msg);
        [specialize (Hacc eq_refl); discriminate|].
      destruct Hend as (_ & Hpub). exists []. rewrite app_nil_r. auto.
  - exists []. rewrite app_nil_r. auto.
Qed.

Lemma no_error_among_infos (lines : list (Severity * string)) :
  Forall (fun l => fst l = INFO) lines -> filter is_error lines = [].
Proof.
  induction 1 as [|l lines Hl _ IH]; simpl.
  - reflexivity.
  - unfold is_error at 1. rewrite Hl. exact IH.
Qed.

Lemma dispatch_log (ev : Event) (self : ImageToggleService) :
  exists lines,
    get_logger (dispatch ev self) = get_logger self ++ lines /\
    length (filter is_error lines) = (if dropped_event ev then 1 else 0).
Proof.
  destruct ev as [msg | request]; simpl.
  - destruct (imageCallback_logged msg self) as (lines & Hlog & Hsev).
    exists lines. split; [exact Hlog|].
    destruct (accepted msg); simpl.
    + rewrite (no_error_among_infos _ Hsev). reflexivity.
    + destruct Hsev as (line & ->). reflexivity.
  - eexists [_]. split; reflexivity.
Qed.


Lemma published_count_app (evs evs' : list Event) (g : bool) :
  published_count (evs ++ evs') g =
  published_count evs g + published_count evs' (requested evs g).
Proof.
  revert g; induction evs as [|ev evs IH]; intros g; simpl.
  - reflexivity.
  - destruct ev as [msg | request]; rewrite IH; simpl; lia.
Qed.

End Run.

Section RunProperties.

Context {arith : cv.ColorArith} {bridge : cv_bridge.Bridge}.

(** X1. [imageCallback] ends in one of three ways, and never changes the
    flag.  A frame that does not decode or whose channel count has no
    branch is dropped: the callback returns early, publishes nothing and
    logs exactly one [ERROR] line.  A frame with a branch that the current
    mode converts is published: the callback runs to its end and publishes
    one message, tagged "mono8" or "bgr8", logging no error.  A frame with a
    branch that the current mode does not convert (its branch calls
    [cv::cvtColor] on an empty matrix or on a depth other than 8U, 16U,
    32F) makes OpenCV throw: the exception leaves the callback, nothing is
    published and no error is logged. *)
Theorem imageCallback_outcomes (msg : sensor_msgs.Image) (self : ImageToggleService) :
  let after := snd (imageCallback msg self) in
  use_grayscale_ after = use_grayscale_ self /\
  (accepted msg = false ->
   ((exists what, fst (imageCallback msg self) = inl (CvBridgeException what)) \/
    (exists n, fst (imageCallback msg self) = inl (UnsupportedChannels n))) /\
   image_publisher_ after = image_publisher_ self /\
   exists line, get_logger after = get_logger self ++ [(ERROR, line)]) /\
  (publishes (use_grayscale_ self) msg = true ->
   fst (imageCallback msg self) = inr tt /\
   (exists m, image_publisher_ after = image_publisher_ self ++ [m] /\ tagged m) /\
   exists lines, get_logger after = get_logger self ++ lines /\
                 Forall (fun l => fst l = INFO) lines) /\
  (accepted msg = true -> publishes (use_grayscale_ self) msg = false ->
   (exists e, fst (imageCallback msg self) = inl (CvException e)) /\
   image_publisher_ after = image_publisher_ self /\
   exists lines, get_logger after = get_logger self ++ lines /\
                 Forall (fun l => fst l = INFO) lines).
Proof.
  intros after. subst after.
  split; [apply imageCallback_flag|].
  pose proof (imageCallback_ends msg self) as Hend.
  destruct (imageCallback_logged msg self) as (lines & Hlog & Hsev).
  pose proof (publishes_accepted (use_grayscale_ self) msg) as Hacc.
  destruct (accepted msg).
  - split; [discriminate|].
    destruct (publishes (use_grayscale_ self) msg).
    + split; [|discriminate]. intros _.
      destruct Hend as (Hfst & Hpub). eauto.
    + split; [discriminate|]. intros _ _.
      destruct Hend as (Hfst & Hpub). eauto.
  - destruct Hsev as (line & ->). destruct Hend as (Hfst & Hpub).
    split; [eauto|].
    split; [intros Hp; specialize (Hacc Hp); discriminate | discriminate].
Qed.

(** X2. A frame the node drops (it does not decode, or its channel count
    has no branch) leaves no trace but its log line: the mode and the
    published messages after a run of callbacks are those of the same run
    without that frame. *)
Theorem dropped_frame_leaves_no_trace
        (evs1 evs2 : list Event) (msg : sensor_msgs.Image) (self : ImageToggleService) :
  accepted msg = false ->
  observable (spin (evs1 ++ Frame msg :: evs2) self) =
  observable (spin (evs1 ++ evs2) self).
Proof.
  intros Hacc. rewrite !spin_app. simpl.
  apply spin_observable. unfold observable.
  pose proof (imageCallback_ends msg (spin evs1 self)) as Hend.
  rewrite Hacc in Hend. destruct Hend as (_ & Hpub).
  rewrite imageCallback_flag, Hpub. reflexivity.
Qed.

(** X3. The publisher only grows: after any run of callbacks the messages
    published before are still there, in order, followed by one message for
    each frame of the run that the mode requested before it converts, and
    none for the other events (dropped frames, frames on which OpenCV
    throws, toggle requests); so at most one per accepted frame.  Every new
    message is tagged "mono8" or "bgr8". *)
Theorem spin_publishes_one_per_converted_frame
        (evs : list Event) (self : ImageToggleService) :
  exists new,
    image_publisher_ (spin evs self) = image_publisher_ self ++ new /\
    length new = published_count evs (use_grayscale_ self) /\
    length new <= length (filter accepted_event evs) /\
    Forall tagged new.
Proof.
  revert self; induction evs as [|ev evs IH]; intros self.
  - exists []. simpl. rewrite app_nil_r. auto.
  - destruct (dispatch_published ev self) as (new1 & Hpub1 & Hlen1 & Hle1 & Htag1).
    destruct (IH (dispatch ev self)) as (new2 & Hpub2 & Hlen2 & Hle2 & Htag2).
    exists (new1 ++ new2).
    change (spin (ev :: evs) self) with (spin evs (dispatch ev self)).
    rewrite Hpub2, Hpub1, <- app_assoc, length_app.
    split; [reflexivity|]. split; [|split].
    + rewrite Hlen1, Hlen2.
      change (ev :: evs) with ([ev] ++ evs). rewrite published_count_app.
      f_equal. f_equal.
      destruct ev as [msg | request]; simpl; [apply imageCallback_flag | reflexivity].
    + simpl filter. destruct (accepted_event ev); simpl; lia.
    + apply Forall_app. auto.
Qed.

(** X8. A frame is converted under the mode most recently requested: after
    any run of callbacks, a frame with a branch that this mode converts is
    published once, tagged "mono8" with one channel if the last toggle
    request of the run asked for grayscale (or, with no request in the
    run, if the flag was set before it), and tagged "bgr8" with three
    channels otherwise. *)
Theorem frame_converted_under_last_request
        (evs : list Event) (msg : sensor_msgs.Image) (cv_ptr : CvImage)
        (self : ImageToggleService) :
  toCvCopy msg (sensor_msgs.encoding msg) = inr cv_ptr ->
  In (cv.channels (image cv_ptr)) supported ->
  let grayscale := requested evs (use_grayscale_ self) in
  convertible grayscale (image cv_ptr) = true ->
  exists out,
    image_publisher_ (spin (evs ++ [Frame msg]) self) =
      image_publisher_ (spin evs self) ++ [toImageMsg out] /\
    sensor_msgs.encoding (toImageMsg out) = (if grayscale then "mono8" else "bgr8")%string /\
    cv.channels (image out) = (if grayscale then 1 else 3).
Proof.
  intros Hdec Hin grayscale. subst grayscale.
  rewrite <- spin_flag. intros Hconv.
  rewrite spin_app. simpl.
  destruct (convert_supported (spin evs self) cv_ptr Hin Hconv)
    as (out & lines & Hrun & _ & Henc & Hcn & _).
  exists out. rewrite imageCallback_published, Hdec, Hrun. simpl.
  rewrite Henc, Hcn. auto.
Qed.

(** X9. The log only grows, and it counts the dropped frames: after any
    run of callbacks the lines logged before are still there, in order, and
    the lines added hold exactly one [ERROR] line for each frame of the run
    that did not decode or had a channel count without a branch, and none
    for the other events (published frames, frames on which OpenCV throws,
    toggle requests). *)
Theorem spin_logs_one_error_per_dropped_frame
        (evs : list Event) (self : ImageToggleService) :
  exists lines,
    get_logger (spin evs self) = get_logger self ++ lines /\
    length (filter is_error lines) = length (filter dropped_event evs).
Proof.
  revert self; induction evs as [|ev evs IH]; intros self; simpl.
  - exists []. rewrite app_nil_r. auto.
  - destruct (dispatch_log ev self) as (l1 & Hlog1 & Hlen1).
    destruct (IH (dispatch ev self)) as (l2 & Hlog2 & Hlen2).
    exists (l1 ++ l2). rewrite Hlog2, Hlog1, <- app_assoc.
    split; [reflexivity|].
    rewrite filter_app, length_app, Hlen1, Hlen2.
    destruct (dropped_event ev); reflexivity.
Qed.


End RunProperties.

(** ** Conversions composed and compared *)

Section Composition.

Context {arith : cv.ColorArith} {bridge : cv_bridge.Bridge}.

Lemma length_bytes_of (d : cv.Depth) (v : Z) :
  length (bytes_of d v) = cv.elemSize1_of d.
Proof. unfold bytes_of. rewrite length_map, length_seq. reflexivity. Qed.

Lemma cvtColor_accepts_ext (m1 m2 : cv.Mat) :
  cv.rows m1 = cv.rows m2 -> cv.cols m1 = cv.cols m2 -> cv.depth m1 = cv.depth m2 ->
  cvtColor_accepts m1 = cvtColor_accepts m2 /\ refusal m1 = refusal m2.
Proof.
  intros Hrows Hcols Hdepth.
  unfold cvtColor_accepts, refusal, cv.is_empty, cv.total.
  rewrite Hrows, Hcols, Hdepth. split; reflexivity.
Qed.

(** X4. The message published for a frame that decodes to a buffer fitting
    its header, has a branch, and is converted by the current mode, is well
    formed: it carries the header of the decoded image and its height and
    width; a row takes width times the output's channel count (1 in
    grayscale mode, 3 in colour mode) times the bytes of one sample of the
    input's depth; and the data is exactly height rows long. *)
Theorem published_message_is_well_formed
        (msg : sensor_msgs.Image) (cv_ptr : CvImage) (self : ImageToggleService) :
  toCvCopy msg (sensor_msgs.encoding msg) = inr cv_ptr ->
  In (cv.channels (image cv_ptr)) supported ->
  cv.continuous (image cv_ptr) ->
  convertible (use_grayscale_ self) (image cv_ptr) = true ->
  exists m,
    image_publisher_ (snd (imageCallback msg self)) = image_publisher_ self ++ [m] /\
    sensor_msgs.header m = header cv_ptr /\
    sensor_msgs.height m = cv.rows (image cv_ptr) /\
    sensor_msgs.width m = cv.cols (image cv_ptr) /\
    sensor_msgs.step m =
      sensor_msgs.width m *
      ((if use_grayscale_ self then 1 else 3) * cv.elemSize1_of (cv.depth (image cv_ptr))) /\
    length (sensor_msgs.data m) = sensor_msgs.height m * sensor_msgs.step m.
Proof.
  intros Hdec Hin Hcont Hconv.
  destruct (convert_supported self cv_ptr Hin Hconv)
    as (out & lines & Hrun & Hhdr & _ & Hcn & Hrows & Hcols & Hdepth & Hcont' & _).
  exists (toImageMsg out).
  rewrite imageCallback_published, Hdec, Hrun. simpl.
  specialize (Hcont' Hcont). unfold cv.continuous, cv.total in Hcont'.
  rewrite (length_flat_map_uniform _ (cv.elemSize1_of (cv.depth (image out))))
    by (intros v; apply length_bytes_of).
  unfold cv.elemSize.
  rewrite Hcont', Hcn, Hrows, Hcols, Hdepth, Hhdr. repeat split.
  rewrite !Nat.mul_assoc. reflexivity.
Qed.

(** X5. The conversion is idempotent: a frame it yields is a frame it maps
    to itself, in any state with the same mode. *)
Theorem convert_idempotent (cv_ptr out : CvImage) (self self' : ImageToggleService) :
  fst (convert cv_ptr self) = inr out ->
  use_grayscale_ self' = use_grayscale_ self ->
  fst (convert out self') = inr out.
Proof.
  intros Hrun Hflag.
  destruct (convert_yields _ _ _ Hrun) as [Hin Hconv].
  destruct (convert_supported self cv_ptr Hin Hconv)
    as (out' & lines & Hrun' & _ & Henc & Hcn & _).
  rewrite Hrun in Hrun'. injection Hrun' as <-.
  destruct out as [hdr enc img]. simpl in Henc, Hcn.
  destruct (use_grayscale_ self) eqn:Hg; subst enc.
  - rewrite (convert_gray_1 self' (Build_CvImage hdr "mono8" img) Hflag Hcn).
    reflexivity.
  - rewrite (convert_color_3 self' (Build_CvImage hdr "bgr8" img) Hflag Hcn).
    reflexivity.
Qed.

(** X6. On a colour frame (3 or 4 channels), converting in colour mode and
    then converting the result in grayscale mode ends as converting the
    frame in grayscale mode directly: with the same frame, or with the same
    exception when [cv::cvtColor] does not take the input.  When it takes
    the input (not empty, depth 8U, 16U or 32F) all three conversions yield
    a frame: passing through colour mode loses nothing the grayscale mode
    uses. *)
Theorem gray_of_color_output
        (cv_ptr : CvImage) (in_gray in_color : ImageToggleService) :
  use_grayscale_ in_gray = true ->
  use_grayscale_ in_color = false ->
  cv.channels (image cv_ptr) = 3 \/ cv.channels (image cv_ptr) = 4 ->
  fst (convert cv_ptr in_gray) =
    match fst (convert cv_ptr in_color) with
    | inr bgr => fst (convert bgr in_gray)
    | inl e => inl e
    end /\
  (cvtColor_accepts (image cv_ptr) = true ->
   exists bgr gray,
     fst (convert cv_ptr in_color) = inr bgr /\
     fst (convert cv_ptr in_gray) = inr gray /\
     fst (convert bgr in_gray) = inr gray).
Proof.
  intros Hg Hc Hcn.
  assert (Heq : fst (convert cv_ptr in_gray) =
                match fst (convert cv_ptr in_color) with
                | inr bgr => fst (convert bgr in_gray)
                | inl e => inl e
                end).
  { destruct Hcn as [Hcn | Hcn].
    - rewrite (convert_color_3 _ _ Hc Hcn), (convert_gray_3 _ _ Hg Hcn).
      cbn [fst].
      rewrite (convert_gray_3 in_gray
                 (set_image (set_encoding cv_ptr "bgr8") (image cv_ptr)) Hg)
        by exact Hcn.
      cbn [image set_image set_encoding header encoding].
      destruct (cvtColor_accepts (image cv_ptr)); reflexivity.
    - rewrite (convert_color_4 _ _ Hc Hcn), (convert_gray_4 _ _ Hg Hcn).
      destruct (cvtColor_accepts (image cv_ptr)) eqn:Hacc; [|reflexivity].
      cbn [fst].
      rewrite (convert_gray_3 in_gray
                 (set_image (set_encoding cv_ptr "bgr8")
                            (cv.cvtColor_kernel (image cv_ptr) cv.COLOR_BGRA2BGR)) Hg)
        by reflexivity.
      cbn [image set_image set_encoding header encoding].
      change (cvtColor_accepts (cv.cvtColor_kernel (image cv_ptr) cv.COLOR_BGRA2BGR))
        with (cvtColor_accepts (image cv_ptr)).
      rewrite Hacc, gray_after_dropping_alpha. reflexivity. }
  split; [exact Heq|].
  intros Hacc.
  assert (Hconv : convertible false (image cv_ptr) = true)
    by (unfold convertible; rewrite Hacc; apply orb_true_r).
  assert (Hin : In (cv.channels (image cv_ptr)) supported)
    by (destruct Hcn as [-> | ->]; simpl; tauto).
  rewrite <- Hc in Hconv.
  destruct (convert_supported in_color cv_ptr Hin Hconv) as (bgr & lines & Hbgr & _).
  assert (Hconv' : convertible (use_grayscale_ in_gray) (image cv_ptr) = true)
    by (unfold convertible; rewrite Hacc; apply orb_true_r).
  destruct (convert_supported in_gray cv_ptr Hin Hconv') as (gray & lines' & Hgray & _).
  exists bgr, gray. rewrite Hbgr, Hgray in Heq.
  split; [exact Hbgr|]. split; [exact Hgray|]. symmetry. exact Heq.
Qed.

(** X7. The fourth channel of a 4-channel frame has no part in the outcome:
    two such frames with the same header, size and depth that agree on
    channels 0, 1 and 2 at every pixel are converted alike in either mode,
    to the same frame when [cv::cvtColor] takes them (not empty, depth 8U,
    16U or 32F) and to the same exception otherwise. *)
Theorem alpha_is_ignored (cv1 cv2 : CvImage) (self : ImageToggleService) :
  cv.channels (image cv1) = 4 ->
  cv.channels (image cv2) = 4 ->
  header cv1 = header cv2 ->
  cv.rows (image cv1) = cv.rows (image cv2) ->
  cv.cols (image cv1) = cv.cols (image cv2) ->
  cv.depth (image cv1) = cv.depth (image cv2) ->
  (forall i c, i < cv.total (image cv1) -> c < 3 ->
               cv.at_ (image cv1) i c = cv.at_ (image cv2) i c) ->
  fst (convert cv1 self) = fst (convert cv2 self) /\
  (cvtColor_accepts (image cv1) = true ->
   exists out,
     fst (convert cv1 self) = inr out /\
     fst (convert cv2 self) = inr out).
Proof.
  intros Hc1 Hc2 Hhdr Hrows Hcols Hdepth Hat.
  destruct (cvtColor_accepts_ext _ _ Hrows Hcols Hdepth) as [Hacc Href].
  destruct (use_grayscale_ self) eqn:Hg.
  - rewrite (convert_gray_4 _ _ Hg Hc1), (convert_gray_4 _ _ Hg Hc2), <- Hacc, <- Href.
    unfold set_image, set_encoding. cbn [header encoding image].
    rewrite <- Hhdr, <- (cvtColor_bgr_ext _ _ cv.COLOR_BGRA2GRAY Hrows Hcols Hdepth Hat).
    split; [reflexivity|]. intros ->. eexists. split; reflexivity.
  - rewrite (convert_color_4 _ _ Hg Hc1), (convert_color_4 _ _ Hg Hc2), <- Hacc, <- Href.
    unfold set_image, set_encoding. cbn [header encoding image].
    rewrite <- Hhdr, <- (cvtColor_bgr_ext _ _ cv.COLOR_BGRA2BGR Hrows Hcols Hdepth Hat).
    split; [reflexivity|]. intros ->. eexists. split; reflexivity.
Qed.

End Composition.

(** ** The theorems at the sample inputs *)



Lemma convert_keeps_dimensions_witness :
  In (cv.channels (image yuv_1x2)) supported /\
  exists out,
    fst (convert yuv_1x2 color_node) = inr out /\
    cv.cols (image out) = 2 /\
    cv.rows (image out) = 1 /\
    sensor_msgs.width (toImageMsg out) = 2 /\
    sensor_msgs.height (toImageMsg out) = 1.
Proof.
  assert (H : In (cv.channels (image yuv_1x2)) supported) by (simpl; lia).
  split; [exact H|].
  destruct (convert_keeps_dimensions color_node yuv_1x2 H) as [Hex Hdims].
  destruct (Hex eq_refl) as (out & Hrun).
  exists out. split; [exact Hrun|]. exact (Hdims out Hrun).
Defined.

Lemma convert_gray_to_color_replicates_witness :
  use_grayscale_ color_node = false /\
  cv.channels (image gray_2x2) = 1 /\
  exists out,
    fst (convert gray_2x2 color_node) = inr out /\
    encoding out = "bgr8"%string /\
    cv.channels (image out) = 3 /\
    cv.rows (image out) = 2 /\
    cv.cols (image out) = 2 /\
    (forall i c, i < 4 -> c < 3 ->
                 cv.at_ (image out) i c = nth i [0; 128; 255; 64]%Z 0%Z) /\
    (cv.continuous (image gray_2x2) ->
     cv.data (image out) =
       [0; 0; 0; 128; 128; 128; 255; 255; 255; 64; 64; 64]%Z).
Proof.
  split; [reflexivity|]. split; [reflexivity|].
  destruct (convert_gray_to_color_replicates color_node gray_2x2 eq_refl eq_refl)
    as [Hex Hall].
  destruct (Hex eq_refl) as (out & Hrun).
  destruct (Hall out Hrun) as (Henc & Hcn & Hrows & Hcols & Hat & Hdata).
  exists out. repeat split; try assumption.
  intros i c Hi Hc. rewrite (Hat i c Hi Hc).
  unfold cv.at_. simpl. rewrite Nat.mul_1_r, Nat.add_0_r. reflexivity.
Defined.

Lemma convert_yuv_to_color_zero_chroma_witness :
  use_grayscale_ color_node = false /\
  cv.channels (image yuv_1x2) = 2 /\
  exists out yuv_image,
    fst (convert yuv_1x2 color_node) = inr out /\
    encoding out = "bgr8"%string /\
    cv.channels (image out) = 3 /\
    cv.data (uv_dummy_of (image yuv_1x2)) = [0; 0]%Z /\
    cv.merge [cv.vec_at (cv.split (image yuv_1x2)) 0;
              uv_dummy_of (image yuv_1x2); uv_dummy_of (image yuv_1x2)] = inr yuv_image /\
    cv.cvtColor yuv_image cv.COLOR_YUV2BGR = inr (image out) /\
    cv.data yuv_image = [10; 0; 0; 30; 0; 0]%Z.
Proof.
  split; [reflexivity|]. split; [reflexivity|].
  destruct (convert_yuv_to_color_zero_chroma color_node yuv_1x2 eq_refl eq_refl)
    as [Hex Hall].
  destruct (Hex eq_refl) as (out & Hrun).
  destruct (Hall out Hrun)
    as (yuv_image & Henc & Hcn & _ & _ & Hzero & Hmerge & Hcvt & _ & _ & _ & _ & _ & _ & Hplanes).
  exists out, yuv_image. repeat split; try assumption.
  apply (Hplanes [10; 30]%Z [20; 40]%Z); reflexivity.
Defined.

Lemma convert_rejects_unsupported_witness :
  ~ In (cv.channels (image five_1x1)) supported /\
  convert five_1x1 color_node =
    (inl (UnsupportedChannels 5),
     logged ERROR "Unsupported number of channels: 5" color_node) /\
  fst (imageCallback (toImageMsg five_1x1) color_node) = inl (UnsupportedChannels 5) /\
  image_publisher_ (snd (imageCallback (toImageMsg five_1x1) color_node)) = [].
Proof.
  assert (H : ~ In (cv.channels (image five_1x1)) supported) by (simpl; lia).
  split; [exact H|].
  destruct (convert_rejects_unsupported color_node five_1x1 H) as [Hrun Hcb].
  split; [exact Hrun|].
  destruct (Hcb (toImageMsg five_1x1) eq_refl) as (Hfst & Hpub & _).
  split; [exact Hfst | exact Hpub].
Defined.

Lemma convert_target_format_is_noop_witness :
  ((use_grayscale_ color_node = true /\ cv.channels (image white_2x2) = 1) \/
   (use_grayscale_ color_node = false /\ cv.channels (image white_2x2) = 3)) /\
  exists out,
    fst (convert white_2x2 color_node) = inr out /\
    cv.data (image out) = repeat 255%Z 12 /\
    image out = image white_2x2.
Proof.
  assert (H : (use_grayscale_ color_node = true /\ cv.channels (image white_2x2) = 1) \/
              (use_grayscale_ color_node = false /\ cv.channels (image white_2x2) = 3))
    by (right; split; reflexivity).
  split; [exact H|].
  exact (convert_target_format_is_noop color_node white_2x2 H).
Defined.

Lemma convert_yuv_to_gray_takes_luma_witness :
  use_grayscale_ gray_node = true /\
  cv.channels (image yuv_1x2) = 2 /\
  exists out,
    fst (convert yuv_1x2 gray_node) = inr out /\
    encoding out = "mono8"%string /\
    cv.channels (image out) = 1 /\
    cv.data (image out) = [10; 30]%Z.
Proof.
  split; [reflexivity|]. split; [reflexivity|].
  destruct (convert_yuv_to_gray_takes_luma gray_node yuv_1x2 eq_refl eq_refl)
    as (out & Hrun & Henc & Hcn & _ & _ & _ & _ & Hplanes).
  exists out. repeat split; try assumption.
  apply (Hplanes [10; 30]%Z [20; 40]%Z); reflexivity.
Defined.

Lemma dropped_frame_leaves_no_trace_witness :
  accepted (toImageMsg five_1x1) = false /\
  observable (spin ([Toggle {| std_srvs.data := true |}]
                    ++ Frame (toImageMsg five_1x1) :: [Frame (toImageMsg gray_2x2)])
                   ImageToggleService_init) =
  observable (spin ([Toggle {| std_srvs.data := true |}] ++ [Frame (toImageMsg gray_2x2)])
                   ImageToggleService_init).
Proof.
  split; [reflexivity|].
  apply (dropped_frame_leaves_no_trace
           [Toggle {| std_srvs.data := true |}] [Frame (toImageMsg gray_2x2)]
           (toImageMsg five_1x1) ImageToggleService_init).
  reflexivity.
Defined.

Lemma frame_converted_under_last_request_witness :
  toCvCopy (toImageMsg white_2x2) "bgr8" = inr white_2x2 /\
  In (cv.channels (image white_2x2)) supported /\
  convertible true (image white_2x2) = true /\
  exists out,
    image_publisher_
      (spin ([Toggle {| std_srvs.data := false |}; Toggle {| std_srvs.data := true |}]
             ++ [Frame (toImageMsg white_2x2)]) ImageToggleService_init) =
      [toImageMsg out] /\
    sensor_msgs.encoding (toImageMsg out) = "mono8"%string /\
    cv.channels (image out) = 1.
Proof.
  assert (Hdec : toCvCopy (toImageMsg white_2x2)
                          (sensor_msgs.encoding (toImageMsg white_2x2)) = inr white_2x2)
    by reflexivity.
  assert (Hin : In (cv.channels (image white_2x2)) supported) by (simpl; lia).
  split; [exact Hdec|]. split; [exact Hin|]. split; [reflexivity|].
  exact (frame_converted_under_last_request
           [Toggle {| std_srvs.data := false |}; Toggle {| std_srvs.data := true |}]
           (toImageMsg white_2x2) white_2x2 ImageToggleService_init Hdec Hin eq_refl).
Defined.

Lemma published_message_is_well_formed_witness :
  toCvCopy (toImageMsg deep_1x2) "mono16" = inr deep_1x2 /\
  In (cv.channels (image deep_1x2)) supported /\
  cv.continuous (image deep_1x2) /\
  convertible (use_grayscale_ color_node) (image deep_1x2) = true /\
  exists m,
    image_publisher_ (snd (imageCallback (toImageMsg deep_1x2) color_node)) = [m] /\
    sensor_msgs.header m = camera /\
    sensor_msgs.height m = 1 /\
    sensor_msgs.width m = 2 /\
    sensor_msgs.step m = 12 /\
    length (sensor_msgs.data m) = 12.
Proof.
  assert (Hdec : toCvCopy (toImageMsg deep_1x2)
                          (sensor_msgs.encoding (toImageMsg deep_1x2)) = inr deep_1x2)
    by reflexivity.
  assert (Hin : In (cv.channels (image deep_1x2)) supported) by (simpl; lia).
  split; [exact Hdec|]. split; [exact Hin|]. split; [reflexivity|]. split; [reflexivity|].
  destruct (published_message_is_well_formed
              (toImageMsg deep_1x2) deep_1x2 color_node Hdec Hin eq_refl eq_refl)
    as (m & Hpub & Hhdr & Hh & Hw & Hstep & Hlen).
  exists m. rewrite Hlen, Hstep, Hh, Hw. repeat split; assumption.
Defined.

Lemma convert_idempotent_witness :
  exists out,
    fst (convert bgra_1x2 gray_node) = inr out /\
    use_grayscale_ gray_node = use_grayscale_ gray_node /\
    fst (convert out gray_node) = inr out.
Proof.
  eexists. split; [reflexivity|]. split; [reflexivity|].
  apply (convert_idempotent bgra_1x2 _ gray_node gray_node); reflexivity.
Defined.

Lemma gray_of_color_output_witness :
  use_grayscale_ gray_node = true /\
  use_grayscale_ color_node = false /\
  (cv.channels (image bgra_1x2) = 3 \/ cv.channels (image bgra_1x2) = 4) /\
  exists bgr gray,
    fst (convert bgra_1x2 color_node) = inr bgr /\
    fst (convert bgra_1x2 gray_node) = inr gray /\
    fst (convert bgr gray_node) = inr gray.
Proof.
  split; [reflexivity|]. split; [reflexivity|]. split; [right; reflexivity|].
  destruct (gray_of_color_output bgra_1x2 gray_node color_node eq_refl eq_refl
              (or_intror eq_refl)) as [_ Hex].
  exact (Hex eq_refl).
Defined.

Lemma alpha_is_ignored_witness :
  cv.channels (image bgra_1x2) = 4 /\
  cv.channels (image bgra_1x2_faded) = 4 /\
  (forall i c, i < cv.total (image bgra_1x2) -> c < 3 ->
               cv.at_ (image bgra_1x2) i c = cv.at_ (image bgra_1x2_faded) i c) /\
  exists out,
    fst (convert bgra_1x2 color_node) = inr out /\
    fst (convert bgra_1x2_faded color_node) = inr out.
Proof.
  assert (Hat : forall i c, i < cv.total (image bgra_1x2) -> c < 3 ->
                  cv.at_ (image bgra_1x2) i c = cv.at_ (image bgra_1x2_faded) i c).
  { intros i c Hi Hc. change (i < 2) in Hi.
    destruct i as [|[|i]]; [| |lia];
      (destruct c as [|[|[|c]]]; [reflexivity | reflexivity | reflexivity | lia]). }
  split; [reflexivity|]. split; [reflexivity|]. split; [exact Hat|].
  destruct (alpha_is_ignored bgra_1x2 bgra_1x2_faded color_node
              eq_refl eq_refl eq_refl eq_refl eq_refl eq_refl Hat) as [_ Hex].
  exact (Hex eq_refl).
Defined.

(** The scenarios of the specification, run on the model. *)

Example scenario_gray_2x2_in_color :
  fst (convert gray_2x2 color_node) =
  inr (frame "bgr8" 2 2 3 [0; 0; 0; 128; 128; 128; 255; 255; 255; 64; 64; 64]%Z).
Proof. reflexivity. Qed.

Example scenario_white_2x2_in_grayscale :
  fst (convert white_2x2 gray_node) = inr (frame "mono8" 2 2 1 [255; 255; 255; 255]%Z).
Proof. reflexivity. Qed.

Example scenario_five_channels :
  fst (convert five_1x1 color_node) = inl (UnsupportedChannels 5) /\
  fst (convert five_1x1 gray_node) = inl (UnsupportedChannels 5) /\
  image_publisher_ (snd (imageCallback (toImageMsg five_1x1) gray_node)) = [].
Proof. repeat split. Qed.

Example scenario_published :
  image_publisher_ (snd (imageCallback (toImageMsg gray_2x2) color_node)) =
  [toImageMsg (frame "bgr8" 2 2 3 [0; 0; 0; 128; 128; 128; 255; 255; 255; 64; 64; 64]%Z)].
Proof. reflexivity. Qed.

(** An empty message is published in grayscale mode and ends the run in
    colour mode; a 16-bit frame is republished with two bytes a sample. *)
Example scenario_empty_message :
  fst (imageCallback empty_message gray_node) = inr tt /\
  snd (main [Frame (toImageMsg gray_2x2); Frame empty_message;
             Toggle {| std_srvs.data := true |}]) = Terminated cv.EmptySource /\
  use_grayscale_ (fst (main [Frame (toImageMsg gray_2x2); Frame empty_message;
                             Toggle {| std_srvs.data := true |}])) = false.
Proof. repeat split. Qed.

Example scenario_16_bit :
  map sensor_msgs.step
      (image_publisher_ (snd (imageCallback (toImageMsg deep_1x2) gray_node))) = [4] /\
  map sensor_msgs.encoding
      (image_publisher_ (snd (imageCallback (toImageMsg deep_1x2) gray_node))) = ["mono8"%string].
Proof. split; reflexivity. Qed.

(** Frames of doubles are refused wherever the branch calls
    [cv::cvtColor], and pass where it does not. *)
Example scenario_doubles :
  fst (convert (frame_of cv.CV_64F "64FC4" 1 1 4 [1; 2; 3; 4]%Z) color_node) =
    inl (CvException cv.UnsupportedDepth) /\
  fst (convert (frame_of cv.CV_64F "64FC4" 1 1 4 [1; 2; 3; 4]%Z) gray_node) =
    inl (CvException cv.UnsupportedDepth) /\
  fst (convert double_1x1 color_node) = inr (set_encoding double_1x1 "bgr8").
Proof. repeat split. Qed.
